(** * Employee directory: the in-memory collection and its helpers

    A shallow embedding of the data-management core of the employee
    directory (models/Employee.js, models/EmployeeCollection.js,
    utils/helpers.js and the fallback path of api/EmployeeAPI.js), and the
    properties of the specification that were checked against it.

    Conventions of the embedding.
    - JavaScript strings are [string]s of the code units 0 to 255, the
      Latin-1 part of Unicode.
    - JavaScript numbers are integers ([Z]); [NaN], infinities and
      fractions are outside the model.
    - Employee objects have the field types of the data model: string
      fields hold strings, [salary] holds a number or [null], [isActive] a
      boolean, [id] a number or a string.
    - A method that can throw returns a [completion]: the value returned or
      the message thrown, together with the object state at that point.
    - The objects of [employees] are distinct objects, and every
      collection method that changes one of them recomputes
      [filteredEmployees] from [employees] before it returns; so the two
      arrays, which share their objects, are modelled as lists of values. *)

From Stdlib Require Import ZArith List Bool String Ascii Lia.
From Stdlib Require Import Permutation Sorted DecimalString.
Import ListNotations.

Local Open Scope string_scope.
Local Open Scope Z_scope.

(** ** JavaScript values and string primitives *)

Module JS.

Inductive value : Type :=
| Undefined
| Null
| Bool (b : bool)
| Num (n : Z)
| Str (s : string).

(** [v == null] *)
Definition isNullish (v : value) : bool :=
  match v with
  | Undefined | Null => true
  | _ => false
  end.

Definition code (c : ascii) : N := N_of_ascii c.

Definition isUpper (c : ascii) : bool := ((65 <=? code c) && (code c <=? 90))%N.
Definition isDigit (c : ascii) : bool := ((48 <=? code c) && (code c <=? 57))%N.
Definition isLower (c : ascii) : bool := ((97 <=? code c) && (code c <=? 122))%N.

(** The class [\s], which is also what [trim] removes: tab, line feed,
    vertical tab, form feed, carriage return, space and no-break space. *)
Definition isSpace (c : ascii) : bool :=
  ((9 <=? code c) && (code c <=? 13) || (code c =? 32) || (code c =? 160))%N.

(** The capital letters with a diacritic, U+00C0 to U+00DE without the
    multiplication sign. *)
Definition isUpperLatin (c : ascii) : bool :=
  ((192 <=? code c) && (code c <=? 222) && negb (code c =? 215))%N.

Definition lowerChar (c : ascii) : ascii :=
  if isUpper c || isUpperLatin c then ascii_of_N (code c + 32) else c.

(** [s.toLowerCase()] *)
Fixpoint toLowerCase (s : string) : string :=
  match s with
  | EmptyString => EmptyString
  | String c s' => String (lowerChar c) (toLowerCase s')
  end.

(** [s.includes(t)]: [t] occurs in [s] as a contiguous substring. *)
Fixpoint includes (s t : string) : bool :=
  String.prefix t s ||
  match s with
  | EmptyString => false
  | String _ s' => includes s' t
  end.

Fixpoint dropSpaces (l : list ascii) : list ascii :=
  match l with
  | c :: l' => if isSpace c then dropSpaces l' else l
  | [] => []
  end.

(** [s.trim()] *)
Definition trim (s : string) : string :=
  string_of_list_ascii
    (rev (dropSpaces (rev (dropSpaces (list_ascii_of_string s))))).

(** [s.replace(/\D/g, '')]: the decimal digits of [s]. *)
Definition digitsOf (s : string) : string :=
  string_of_list_ascii (filter isDigit (list_ascii_of_string s)).

(** Truthiness of a string: the empty string is falsy. *)
Definition nonEmpty (s : string) : bool :=
  match s with
  | EmptyString => false
  | _ => true
  end.

Definition len (s : string) : Z := Z.of_nat (String.length s).

Fixpoint digitsValue (acc : Z) (l : list ascii) : option Z :=
  match l with
  | [] => Some acc
  | c :: l' =>
      if isDigit c
      then digitsValue (10 * acc + Z.of_N (code c - 48)) l'
      else None
  end.

(** [Number(s)] on the strings that denote integers in decimal: the
    trimmed string is empty (0), or an optional sign followed by digits.
    [None] stands for [NaN]; literals with a fraction, an exponent or a
    radix prefix denote no number of this model. *)
Definition stringToNumber (s : string) : option Z :=
  match list_ascii_of_string (trim s) with
  | [] => Some 0
  | c :: l =>
      if (code c =? 45)%N then
        match l with
        | [] => None
        | _ => option_map Z.opp (digitsValue 0 l)
        end
      else if (code c =? 43)%N then
        match l with
        | [] => None
        | _ => digitsValue 0 l
        end
      else digitsValue 0 (c :: l)
  end.

(** [Number(v)] *)
Definition toNumber (v : value) : option Z :=
  match v with
  | Undefined => None
  | Null => Some 0
  | Bool b => Some (if b then 1 else 0)
  | Num n => Some n
  | Str s => stringToNumber s
  end.

(** [a < b]: code-unit order on two strings, numeric order otherwise,
    [false] as soon as one side is [NaN]. [a > b] is [lt b a]. *)
Definition lt (a b : value) : bool :=
  match a, b with
  | Str s, Str t => String.ltb s t
  | _, _ =>
      match toNumber a, toNumber b with
      | Some x, Some y => x <? y
      | _, _ => false
      end
  end.

(** [Array.prototype.sort(cmp)] is a stable sort: an element stays in
    front of the later elements it does not compare greater than.  For a
    consistent comparator every stable sort computes the same array; it
    is computed here by insertion from the right. *)
Section Sort.
Context {A : Type} (cmp : A -> A -> Z).

Fixpoint insert (x : A) (l : list A) : list A :=
  match l with
  | [] => [x]
  | y :: l' => if cmp x y <=? 0 then x :: l else y :: insert x l'
  end.

Definition sort (l : list A) : list A := fold_right insert [] l.
End Sort.

(** Decimal digits of a natural number. *)
Definition decimal (n : N) : string := NilZero.string_of_uint (N.to_uint n).

Definition hexDigit (n : N) : ascii :=
  if (n <? 10)%N then ascii_of_N (48 + n) else ascii_of_N (55 + n).

(** Characters [encodeURIComponent] leaves alone:
    letters, digits and [- _ . ! ~ * ' ( )]. *)
Definition isUnreserved (c : ascii) : bool :=
  isUpper c || isLower c || isDigit c ||
  existsb (N.eqb (code c)) [45; 95; 46; 33; 126; 42; 39; 40; 41]%N.

(** The escape [%XY] of one byte, in front of [rest]. *)
Definition escapeByte (b : N) (rest : string) : string :=
  String "%" (String (hexDigit (b / 16)) (String (hexDigit (b mod 16)) rest)).

(** A code unit from 128 on is escaped as the two bytes of its UTF-8
    encoding. *)
Fixpoint encodeURIComponent (s : string) : string :=
  match s with
  | EmptyString => EmptyString
  | String c s' =>
      if isUnreserved c then String c (encodeURIComponent s')
      else if (code c <? 128)%N then escapeByte (code c) (encodeURIComponent s')
      else escapeByte (192 + code c / 64)
             (escapeByte (128 + code c mod 64) (encodeURIComponent s'))
  end.

End JS.

(** ** utils/helpers.js *)

Module Helpers.

Fixpoint groupRev (k : nat) (l : list ascii) : list ascii :=
  match l with
  | [] => []
  | c :: l' =>
      match k with
      | 3%nat => "," %char :: c :: groupRev 1 l'
      | _ => c :: groupRev (S k) l'
      end
  end.

(** Digits of [n] in groups of three separated by commas. *)
Definition grouped (n : N) : string :=
  string_of_list_ascii
    (rev (groupRev 0 (rev (list_ascii_of_string (JS.decimal n))))).

(** [Intl.NumberFormat('en-US', {style: 'currency', currency: 'USD',
    minimumFractionDigits: 0, maximumFractionDigits: 0}).format(n)]
    on an integer. *)
Definition intlCurrency (n : Z) : string :=
  if n <? 0 then "-$" ++ grouped (Z.to_N (- n)) else "$" ++ grouped (Z.to_N n).

(** [formatCurrency(value)]; the value is a number or [null]. *)
Definition formatCurrency (value : option Z) : string :=
  match value with
  | None => "$0"
  | Some n => intlCurrency n
  end.

Definition slice (from to : nat) (s : string) : string :=
  String.substring from (to - from) s.

Definition formatPhone (phone : string) : string :=
  if negb (JS.nonEmpty phone) then ""
  else
    let cleaned := JS.digitsOf phone in
    if (String.length cleaned =? 10)%nat
    then "(" ++ slice 0 3 cleaned ++ ") " ++ slice 3 6 cleaned
             ++ "-" ++ slice 6 10 cleaned
    else phone.

(** All ways of writing [l] as [a ++ c :: b]; [pre] is the reversed
    part already passed. *)
Fixpoint splitsAt (c : ascii) (pre l : list ascii)
  : list (list ascii * list ascii) :=
  match l with
  | [] => []
  | x :: l' =>
      (if Ascii.eqb x c then [(rev pre, l')] else [])
        ++ splitsAt c (x :: pre) l'
  end.

(** A non-empty run of [[^\s@]]. *)
Definition plainRun (l : list ascii) : bool :=
  match l with
  | [] => false
  | _ => forallb (fun x => negb (JS.isSpace x || Ascii.eqb x "@")) l
  end.

(** [/^[^\s@]+@[^\s@]+\.[^\s@]+$/.test(email)] *)
Definition isValidEmail (email : string) : bool :=
  existsb
    (fun ar =>
       plainRun (fst ar) &&
       existsb (fun bc => plainRun (fst bc) && plainRun (snd bc))
               (splitsAt "." [] (snd ar)))
    (splitsAt "@" [] (list_ascii_of_string email)).

Definition isNonZeroDigit (c : ascii) : bool :=
  ((49 <=? JS.code c) && (JS.code c <=? 57))%N.

(** [/^[\+]?[1-9][\d]{0,15}$/.test(s)] *)
Definition phoneRegex (s : string) : bool :=
  let body l :=
    match l with
    | c :: l' =>
        isNonZeroDigit c && forallb JS.isDigit l' && (List.length l' <=? 15)%nat
    | [] => false
    end in
  match list_ascii_of_string s with
  | c :: l => if Ascii.eqb c "+" then body l else body (c :: l)
  | [] => false
  end.

Definition isValidPhone (phone : string) : bool :=
  if negb (JS.nonEmpty phone) then true
  else phoneRegex (JS.digitsOf phone).

Definition lowerIfString (v : JS.value) : JS.value :=
  match v with
  | JS.Str s => JS.Str (JS.toLowerCase s)
  | _ => v
  end.

(** The comparator of [sortByProperty] on the two property values. *)
Definition compareValues (direction : string) (aVal bVal : JS.value) : Z :=
  if JS.isNullish aVal && JS.isNullish bVal then 0
  else if JS.isNullish aVal then (if direction =? "asc" then 1 else -1)%string
  else if JS.isNullish bVal then (if direction =? "asc" then -1 else 1)%string
  else
    let aVal := lowerIfString aVal in
    let bVal := lowerIfString bVal in
    if (direction =? "asc")%string
    then (if JS.lt aVal bVal then -1 else if JS.lt bVal aVal then 1 else 0)
    else (if JS.lt bVal aVal then -1 else if JS.lt aVal bVal then 1 else 0).

(** [sortByProperty(array, property, direction)]; [get a p] is the
    property access [a[p]]. *)
Definition sortByProperty {A : Type} (get : A -> string -> JS.value)
    (array : list A) (property direction : string) : list A :=
  JS.sort (fun a b => compareValues direction (get a property) (get b property))
          array.

End Helpers.

(** ** models/Employee.js *)

(** An identifier is a number (records of the remote service and the mock
    records) or a string (identifiers made by [Helpers.generateId]). *)
Inductive ident : Type :=
| IdNum (n : Z)
| IdStr (s : string).

(** [a === b] on identifiers. *)
Definition sameId (a b : ident) : bool :=
  match a, b with
  | IdNum n, IdNum m => n =? m
  | IdStr s, IdStr t => (s =? t)%string
  | _, _ => false
  end.

Definition truthyId (i : ident) : bool :=
  match i with
  | IdNum n => negb (n =? 0)
  | IdStr s => JS.nonEmpty s
  end.

Record Employee : Type := mkEmployee {
  id : ident;
  name : string;
  email : string;
  phone : string;
  department : string;
  position : string;
  salary : option Z;
  hireDate : string;
  isActive : bool;
  avatar : string;
  fullName : string;
  displaySalary : string;
  formattedPhone : string
}.

(** The plain object handed to the constructor and to [update]: each
    known key is absent ([None]) or carries a value of the field's type;
    [other] lists the remaining keys with their values. *)
Module Data.
Record t : Type := mk {
  id : option ident;
  name : option string;
  email : option string;
  phone : option string;
  department : option string;
  position : option string;
  salary : option (option Z);
  hireDate : option string;
  isActive : option bool;
  avatar : option string;
  fullName : option string;
  displaySalary : option string;
  formattedPhone : option string;
  other : list (string * JS.value)
}.

(** The object [{}], the default argument of the constructor. *)
Definition empty : t :=
  mk None None None None None None None None None None None None None [].

Definition present {A : Type} (key : string) (v : option A) : list string :=
  match v with
  | Some _ => [key]
  | None => []
  end.

(** [Object.keys(data)] *)
Definition keys (d : t) : list string :=
  (present "id" (id d) ++ present "name" (name d) ++ present "email" (email d)
    ++ present "phone" (phone d) ++ present "department" (department d)
    ++ present "position" (position d) ++ present "salary" (salary d)
    ++ present "hireDate" (hireDate d) ++ present "isActive" (isActive d)
    ++ present "avatar" (avatar d) ++ present "fullName" (fullName d)
    ++ present "displaySalary" (displaySalary d)
    ++ present "formattedPhone" (formattedPhone d)
    ++ map fst (other d))%list.
End Data.

(** [v || d] on an optional string. *)
Definition orString (v : option string) (d : string) : string :=
  match v with
  | Some s => if JS.nonEmpty s then s else d
  | None => d
  end.

(** [_generateAvatar()] reads [this.name]. *)
Definition generateAvatar (name : string) : string :=
  "https://ui-avatars.com/api/?name=" ++ JS.encodeURIComponent name
    ++ "&background=2563eb&color=fff&size=40".

(** [new Employee(data)]; [generatedId] is the value of
    [Helpers.generateId()] and [now] that of [new Date().toISOString()]
    at the call. *)
Definition newEmployee (generatedId : ident) (now : string) (data : Data.t)
  : Employee :=
  let id :=
    match Data.id data with
    | Some i => if truthyId i then i else generatedId
    | None => generatedId
    end in
  let name := orString (Data.name data) "" in
  let phone := orString (Data.phone data) "" in
  let salary :=
    match Data.salary data with
    | Some (Some n) => if n =? 0 then Some 0 else Some n
    | _ => Some 0
    end in
  {| id := id;
     name := name;
     email := orString (Data.email data) "";
     phone := phone;
     department := orString (Data.department data) "";
     position := orString (Data.position data) "";
     salary := salary;
     hireDate := orString (Data.hireDate data) now;
     isActive := match Data.isActive data with Some b => b | None => true end;
     avatar := orString (Data.avatar data) (generateAvatar name);
     fullName := name;
     displaySalary := Helpers.formatCurrency salary;
     formattedPhone := Helpers.formatPhone phone |}.

Record Validation : Type := { isValid : bool; errors : list string }.

(** [validate()]; a salary that is a number is never [NaN], which leaves
    [this.salary < 0] of the last test. *)
Definition validate (e : Employee) : Validation :=
  let errors :=
    ((if negb (JS.nonEmpty (name e)) || (JS.len (JS.trim (name e)) <? 2)
     then ["Name must be at least 2 characters long"] else [])
    ++ (if negb (JS.nonEmpty (email e)) || negb (Helpers.isValidEmail (email e))
        then ["Valid email address is required"] else [])
    ++ (if JS.nonEmpty (phone e) && negb (Helpers.isValidPhone (phone e))
        then ["Phone number format is invalid"] else [])
    ++ (if negb (JS.nonEmpty (department e))
           || (JS.len (JS.trim (department e)) =? 0)
        then ["Department is required"] else [])
    ++ (if negb (JS.nonEmpty (position e)) || (JS.len (JS.trim (position e)) <? 2)
        then ["Position must be at least 2 characters long"] else [])
    ++ (match salary e with
        | Some n => if negb (n =? 0) && (n <? 0)
                    then ["Salary must be a positive number"] else []
        | None => []
        end))%list in
  {| isValid := (List.length errors =? 0)%nat; errors := errors |}.

Definition ownKeys : list string :=
  ["id"; "name"; "email"; "phone"; "department"; "position"; "salary";
   "hireDate"; "isActive"; "avatar"; "fullName"; "displaySalary";
   "formattedPhone"].

(** [this.hasOwnProperty(key)] on an instance of the class: the own
    properties are those the constructor assigns. *)
Definition hasOwnProperty (key : string) : bool :=
  existsb (String.eqb key) ownKeys.

Definition setId v e :=
  mkEmployee v (name e) (email e) (phone e) (department e) (position e)
    (salary e) (hireDate e) (isActive e) (avatar e) (fullName e)
    (displaySalary e) (formattedPhone e).
Definition setName v e :=
  mkEmployee (id e) v (email e) (phone e) (department e) (position e)
    (salary e) (hireDate e) (isActive e) (avatar e) (fullName e)
    (displaySalary e) (formattedPhone e).
Definition setEmail v e :=
  mkEmployee (id e) (name e) v (phone e) (department e) (position e)
    (salary e) (hireDate e) (isActive e) (avatar e) (fullName e)
    (displaySalary e) (formattedPhone e).
Definition setPhone v e :=
  mkEmployee (id e) (name e) (email e) v (department e) (position e)
    (salary e) (hireDate e) (isActive e) (avatar e) (fullName e)
    (displaySalary e) (formattedPhone e).
Definition setDepartment v e :=
  mkEmployee (id e) (name e) (email e) (phone e) v (position e) (salary e)
    (hireDate e) (isActive e) (avatar e) (fullName e) (displaySalary e)
    (formattedPhone e).
Definition setPosition v e :=
  mkEmployee (id e) (name e) (email e) (phone e) (department e) v (salary e)
    (hireDate e) (isActive e) (avatar e) (fullName e) (displaySalary e)
    (formattedPhone e).
Definition setSalary v e :=
  mkEmployee (id e) (name e) (email e) (phone e) (department e) (position e) v
    (hireDate e) (isActive e) (avatar e) (fullName e) (displaySalary e)
    (formattedPhone e).
Definition setHireDate v e :=
  mkEmployee (id e) (name e) (email e) (phone e) (department e) (position e)
    (salary e) v (isActive e) (avatar e) (fullName e) (displaySalary e)
    (formattedPhone e).
Definition setIsActive v e :=
  mkEmployee (id e) (name e) (email e) (phone e) (department e) (position e)
    (salary e) (hireDate e) v (avatar e) (fullName e) (displaySalary e)
    (formattedPhone e).
Definition setAvatar v e :=
  mkEmployee (id e) (name e) (email e) (phone e) (department e) (position e)
    (salary e) (hireDate e) (isActive e) v (fullName e) (displaySalary e)
    (formattedPhone e).
Definition setFullName v e :=
  mkEmployee (id e) (name e) (email e) (phone e) (department e) (position e)
    (salary e) (hireDate e) (isActive e) (avatar e) v (displaySalary e)
    (formattedPhone e).
Definition setDisplaySalary v e :=
  mkEmployee (id e) (name e) (email e) (phone e) (department e) (position e)
    (salary e) (hireDate e) (isActive e) (avatar e) (fullName e) v
    (formattedPhone e).
Definition setFormattedPhone v e :=
  mkEmployee (id e) (name e) (email e) (phone e) (department e) (position e)
    (salary e) (hireDate e) (isActive e) (avatar e) (fullName e)
    (displaySalary e) v.

Definition assignWith {A : Type} (set : A -> Employee -> Employee)
    (v : option A) (e : Employee) : Employee :=
  match v with
  | Some x => set x e
  | None => e
  end.

(** [this[key] = data[key]] for a key of [data] that the object owns. *)
Definition assign (key : string) (data : Data.t) (e : Employee) : Employee :=
  if (key =? "id")%string then assignWith setId (Data.id data) e
  else if (key =? "name")%string then assignWith setName (Data.name data) e
  else if (key =? "email")%string then assignWith setEmail (Data.email data) e
  else if (key =? "phone")%string then assignWith setPhone (Data.phone data) e
  else if (key =? "department")%string
       then assignWith setDepartment (Data.department data) e
  else if (key =? "position")%string
       then assignWith setPosition (Data.position data) e
  else if (key =? "salary")%string then assignWith setSalary (Data.salary data) e
  else if (key =? "hireDate")%string
       then assignWith setHireDate (Data.hireDate data) e
  else if (key =? "isActive")%string
       then assignWith setIsActive (Data.isActive data) e
  else if (key =? "avatar")%string then assignWith setAvatar (Data.avatar data) e
  else if (key =? "fullName")%string
       then assignWith setFullName (Data.fullName data) e
  else if (key =? "displaySalary")%string
       then assignWith setDisplaySalary (Data.displaySalary data) e
  else if (key =? "formattedPhone")%string
       then assignWith setFormattedPhone (Data.formattedPhone data) e
  else e.

(** The body of the [forEach] of [update]. *)
Definition mergeKey (data : Data.t) (e : Employee) (key : string) : Employee :=
  if hasOwnProperty key && negb (key =? "id")%string
  then assign key data e
  else e.

(** The four assignments that close [update]. *)
Definition recompute (e : Employee) : Employee :=
  let e := setFullName (name e) e in
  let e := setDisplaySalary (Helpers.formatCurrency (salary e)) e in
  let e := setFormattedPhone (Helpers.formatPhone (phone e)) e in
  setAvatar (generateAvatar (name e)) e.

Definition update (e : Employee) (data : Data.t) : Employee :=
  recompute (fold_left (mergeKey data) (Data.keys data) e).

Definition searchFields (e : Employee) : list string :=
  [name e; email e; department e; position e; phone e].

Definition matchesSearch (e : Employee) (searchTerm : string) : bool :=
  if negb (JS.nonEmpty searchTerm) then true
  else
    let term := JS.toLowerCase searchTerm in
    existsb (fun field => JS.nonEmpty field
                          && JS.includes (JS.toLowerCase field) term)
            (searchFields e).

(** The property access [e[key]]. *)
Definition getProp (e : Employee) (key : string) : JS.value :=
  if (key =? "id")%string
  then match id e with IdNum n => JS.Num n | IdStr s => JS.Str s end
  else if (key =? "name")%string then JS.Str (name e)
  else if (key =? "email")%string then JS.Str (email e)
  else if (key =? "phone")%string then JS.Str (phone e)
  else if (key =? "department")%string then JS.Str (department e)
  else if (key =? "position")%string then JS.Str (position e)
  else if (key =? "salary")%string
       then match salary e with Some n => JS.Num n | None => JS.Null end
  else if (key =? "hireDate")%string then JS.Str (hireDate e)
  else if (key =? "isActive")%string then JS.Bool (isActive e)
  else if (key =? "avatar")%string then JS.Str (avatar e)
  else if (key =? "fullName")%string then JS.Str (fullName e)
  else if (key =? "displaySalary")%string then JS.Str (displaySalary e)
  else if (key =? "formattedPhone")%string then JS.Str (formattedPhone e)
  else JS.Undefined.

(** ** models/EmployeeCollection.js *)

(** An observer is a callback, named here by a handle.  [calls] is not a
    field of the class: it records, in order, the callbacks that
    [notifyObservers] has invoked.  Callbacks are taken not to call back
    into the collection. *)
Record EmployeeCollection : Type := mkCollection {
  employees : list Employee;
  filteredEmployees : list Employee;
  currentPage : Z;
  pageSize : Z;
  sortField : string;
  sortDirection : string;
  searchTerm : string;
  departmentFilters : list string;
  observers : list nat;
  calls : list nat
}.

(** The state the constructor builds. *)
Definition newCollection : EmployeeCollection :=
  {| employees := []; filteredEmployees := []; currentPage := 1;
     pageSize := 25; sortField := "name"; sortDirection := "asc";
     searchTerm := ""; departmentFilters := []; observers := []; calls := [] |}.

Definition withEmployees v c :=
  mkCollection v (filteredEmployees c) (currentPage c) (pageSize c)
    (sortField c) (sortDirection c) (searchTerm c) (departmentFilters c)
    (observers c) (calls c).
Definition withFiltered v c :=
  mkCollection (employees c) v (currentPage c) (pageSize c) (sortField c)
    (sortDirection c) (searchTerm c) (departmentFilters c) (observers c)
    (calls c).
Definition withCurrentPage v c :=
  mkCollection (employees c) (filteredEmployees c) v (pageSize c)
    (sortField c) (sortDirection c) (searchTerm c) (departmentFilters c)
    (observers c) (calls c).
Definition withPageSize v c :=
  mkCollection (employees c) (filteredEmployees c) (currentPage c) v
    (sortField c) (sortDirection c) (searchTerm c) (departmentFilters c)
    (observers c) (calls c).
Definition withSortField v c :=
  mkCollection (employees c) (filteredEmployees c) (currentPage c)
    (pageSize c) v (sortDirection c) (searchTerm c) (departmentFilters c)
    (observers c) (calls c).
Definition withSortDirection v c :=
  mkCollection (employees c) (filteredEmployees c) (currentPage c)
    (pageSize c) (sortField c) v (searchTerm c) (departmentFilters c)
    (observers c) (calls c).
Definition withSearchTerm v c :=
  mkCollection (employees c) (filteredEmployees c) (currentPage c)
    (pageSize c) (sortField c) (sortDirection c) v (departmentFilters c)
    (observers c) (calls c).
Definition withDepartmentFilters v c :=
  mkCollection (employees c) (filteredEmployees c) (currentPage c)
    (pageSize c) (sortField c) (sortDirection c) (searchTerm c) v
    (observers c) (calls c).
Definition withObservers v c :=
  mkCollection (employees c) (filteredEmployees c) (currentPage c)
    (pageSize c) (sortField c) (sortDirection c) (searchTerm c)
    (departmentFilters c) v (calls c).
Definition withCalls v c :=
  mkCollection (employees c) (filteredEmployees c) (currentPage c)
    (pageSize c) (sortField c) (sortDirection c) (searchTerm c)
    (departmentFilters c) (observers c) v.

(** What a method that may throw leaves behind. *)
Inductive completion (A : Type) : Type :=
| Returned (v : A) (c : EmployeeCollection)
| Threw (message : string) (c : EmployeeCollection).
Arguments Returned {A} v c.
Arguments Threw {A} message c.

Definition stateOf {A : Type} (r : completion A) : EmployeeCollection :=
  match r with
  | Returned _ c => c
  | Threw _ c => c
  end.

Definition addObserver (callback : nat) (c : EmployeeCollection) :=
  withObservers (observers c ++ [callback]) c.


Definition notifyObservers (c : EmployeeCollection) : EmployeeCollection :=
  withCalls (calls c ++ observers c) c.

(** The department test of [applyFilters]:
    [this.departmentFilters.includes(emp.department)]. *)
Definition inDepartments (filters : list string) (emp : Employee) : bool :=
  existsb (String.eqb (department emp)) filters.

(** The array [applyFilters] stores in [filteredEmployees]. *)
Definition filteredView (c : EmployeeCollection) : list Employee :=
  let filtered := filter isActive (employees c) in
  let filtered :=
    if JS.nonEmpty (searchTerm c)
    then filter (fun emp => matchesSearch emp (searchTerm c)) filtered
    else filtered in
  let filtered :=
    if (0 <? List.length (departmentFilters c))%nat
    then filter (inDepartments (departmentFilters c)) filtered
    else filtered in
  Helpers.sortByProperty getProp filtered (sortField c) (sortDirection c).

Definition applyFilters (c : EmployeeCollection) : EmployeeCollection :=
  withFiltered (filteredView c) c.

Definition findById (c : EmployeeCollection) (i : ident) : option Employee :=
  find (fun emp => sameId (id emp) i) (employees c).

Definition sameEmail (a b : string) : bool :=
  (JS.toLowerCase a =? JS.toLowerCase b)%string.

Definition findByEmail (c : EmployeeCollection) (mail : string)
  : option Employee :=
  find (fun emp => sameEmail (email emp) mail) (employees c).

(** The argument of [addEmployee] and the elements of the argument of
    [loadEmployees]: an instance of the class or a plain object. *)
Inductive employeeArg : Type :=
| Instance (e : Employee)
| Plain (d : Data.t).

(** [data instanceof Employee ? data : new Employee(data)] *)
Definition toEmployee (generatedId : ident) (now : string) (a : employeeArg)
  : Employee :=
  match a with
  | Instance e => e
  | Plain d => newEmployee generatedId now d
  end.

Definition duplicateEmail : string := "Employee with this email already exists".

Definition addEmployee (generatedId : ident) (now : string)
    (employeeData : employeeArg) (c : EmployeeCollection)
  : completion Employee :=
  let employee := toEmployee generatedId now employeeData in
  match findByEmail c (email employee) with
  | Some _ => Threw duplicateEmail c
  | None =>
      let c := withEmployees (employees c ++ [employee]) c in
      let c := applyFilters c in
      let c := notifyObservers c in
      Returned employee c
  end.

(** The array after the first element that satisfies [p] has been changed
    by [f]: the effect, on the array, of mutating the object that [find]
    returned. *)
Fixpoint changeFirst {A : Type} (p : A -> bool) (f : A -> A) (l : list A)
  : list A :=
  match l with
  | [] => []
  | x :: l' => if p x then f x :: l' else x :: changeFirst p f l'
  end.

(** The array after [splice(index, 1)] at the first index that satisfies
    [p]. *)
Fixpoint removeFirst {A : Type} (p : A -> bool) (l : list A) : list A :=
  match l with
  | [] => []
  | x :: l' => if p x then l' else x :: removeFirst p l'
  end.

Definition isSome {A : Type} (o : option A) : bool :=
  match o with
  | Some _ => true
  | None => false
  end.

(** [data.email && data.email !== employee.email
     && this.findByEmail(data.email)] *)
Definition emailTaken (c : EmployeeCollection) (employee : Employee)
    (data : Data.t) : bool :=
  match Data.email data with
  | Some mail =>
      JS.nonEmpty mail && negb (mail =? email employee)%string
      && isSome (findByEmail c mail)
  | None => false
  end.

Definition updateEmployee (i : ident) (data : Data.t) (c : EmployeeCollection)
  : completion (option Employee) :=
  match findById c i with
  | None => Returned None c
  | Some employee =>
      if emailTaken c employee data then Threw duplicateEmail c
      else
        let c :=
          withEmployees
            (changeFirst (fun emp => sameId (id emp) i)
                         (fun emp => update emp data) (employees c)) c in
        let c := applyFilters c in
        let c := notifyObservers c in
        Returned (Some (update employee data)) c
  end.

Definition removeEmployee (i : ident) (c : EmployeeCollection)
  : bool * EmployeeCollection :=
  if existsb (fun emp => sameId (id emp) i) (employees c) then
    let c :=
      withEmployees (removeFirst (fun emp => sameId (id emp) i) (employees c)) c in
    let c := applyFilters c in
    let c := notifyObservers c in
    (true, c)
  else (false, c).

Definition deactivateEmployee (i : ident) (c : EmployeeCollection)
  : bool * EmployeeCollection :=
  match findById c i with
  | None => (false, c)
  | Some _ =>
      let c :=
        withEmployees
          (changeFirst (fun emp => sameId (id emp) i) (setIsActive false)
                       (employees c)) c in
      let c := applyFilters c in
      let c := notifyObservers c in
      (true, c)
  end.

Definition setSearchTerm (term : string) (c : EmployeeCollection) :=
  let c := withSearchTerm term c in
  let c := withCurrentPage 1 c in
  let c := applyFilters c in
  notifyObservers c.

(** [departments] is [Some l] for an array and [None] for any other
    value. *)
Definition setDepartmentFilters (departments : option (list string))
    (c : EmployeeCollection) :=
  let c :=
    withDepartmentFilters
      (match departments with Some l => l | None => [] end) c in
  let c := withCurrentPage 1 c in
  let c := applyFilters c in
  notifyObservers c.

(** [direction] is [None] when the argument is left out. *)
Definition setSorting (field : string) (direction : option string)
    (c : EmployeeCollection) :=
  let c := withSortField field c in
  let c :=
    withSortDirection (match direction with Some d => d | None => "asc" end) c in
  let c := applyFilters c in
  notifyObservers c.

(** [size] is the integer [parseInt] reads. *)
Definition setPageSize (size : Z) (c : EmployeeCollection) :=
  let c := withPageSize size c in
  let c := withCurrentPage 1 c in
  notifyObservers c.

(** [Math.ceil(n / p)] for [p <> 0]. *)
Definition ceilDiv (n p : Z) : Z := - ((- n) / p).

Definition getTotalPages (c : EmployeeCollection) : Z :=
  ceilDiv (Z.of_nat (List.length (filteredEmployees c))) (pageSize c).

Definition setCurrentPage (page : Z) (c : EmployeeCollection) :=
  let totalPages := getTotalPages c in
  let c := withCurrentPage (Z.max 1 (Z.min page totalPages)) c in
  notifyObservers c.

(** [array.slice(start, end)] *)
Definition arraySlice {A : Type} (l : list A) (from to : Z) : list A :=
  let len := Z.of_nat (List.length l) in
  let k := if from <? 0 then Z.max (len + from) 0 else Z.min from len in
  let final := if to <? 0 then Z.max (len + to) 0 else Z.min to len in
  firstn (Z.to_nat (final - k)) (skipn (Z.to_nat k) l).

Definition getCurrentPageEmployees (c : EmployeeCollection) : list Employee :=
  let startIndex := (currentPage c - 1) * pageSize c in
  let endIndex := startIndex + pageSize c in
  arraySlice (filteredEmployees c) startIndex endIndex.

Module PaginationInfo.
Record t : Type := mk {
  currentPage : Z;
  totalPages : Z;
  totalItems : Z;
  pageSize : Z;
  startIndex : Z;
  endIndex : Z;
  hasNext : bool;
  hasPrevious : bool
}.
End PaginationInfo.

Definition getPaginationInfo (c : EmployeeCollection) : PaginationInfo.t :=
  let totalItems := Z.of_nat (List.length (filteredEmployees c)) in
  let totalPages := getTotalPages c in
  let startIndex := (currentPage c - 1) * pageSize c + 1 in
  let endIndex := Z.min (startIndex + pageSize c - 1) totalItems in
  {| PaginationInfo.currentPage := currentPage c;
     PaginationInfo.totalPages := totalPages;
     PaginationInfo.totalItems := totalItems;
     PaginationInfo.pageSize := pageSize c;
     PaginationInfo.startIndex := if 0 <? totalItems then startIndex else 0;
     PaginationInfo.endIndex := if 0 <? totalItems then endIndex else 0;
     PaginationInfo.hasNext := currentPage c <? totalPages;
     PaginationInfo.hasPrevious := 1 <? currentPage c |}.

(** [loadEmployees(employeesData)]; the [k]-th element, when it is a plain
    object, is built with the identifier and the date [env k]. *)
Fixpoint loadAll (env : nat -> ident * string) (k : nat)
    (employeesData : list employeeArg) : list Employee :=
  match employeesData with
  | [] => []
  | a :: rest =>
      toEmployee (fst (env k)) (snd (env k)) a :: loadAll env (S k) rest
  end.

Definition loadEmployees (env : nat -> ident * string)
    (employeesData : list employeeArg) (c : EmployeeCollection) :=
  let c := withEmployees (loadAll env 0 employeesData) c in
  let c := applyFilters c in
  notifyObservers c.

Definition clear (c : EmployeeCollection) :=
  let c := withEmployees [] c in
  let c := withFiltered [] c in
  let c := withCurrentPage 1 c in
  notifyObservers c.

Definition nextPage (c : EmployeeCollection) :=
  if currentPage c <? getTotalPages c
  then setCurrentPage (currentPage c + 1) c
  else c.

Definition previousPage (c : EmployeeCollection) :=
  if 1 <? currentPage c
  then setCurrentPage (currentPage c - 1) c
  else c.


(** ** api/EmployeeAPI.js: reading employees *)

Module EmployeeAPI.

(** The fields of a remote user record that [Employee.fromApiData]
    reads. *)
Record User : Type := {
  userId : option ident;
  userName : option string;
  userEmail : option string;
  userPhone : option string
}.

(** What one call of [Employee.fromApiData] takes from its environment:
    the identifier [Helpers.generateId] would make, the current date,
    and the four pseudo-random draws. *)
Record Draw : Type := {
  generatedId : ident;
  now : string;
  departmentDraw : nat;
  positionDraw : nat;
  salaryDraw : Z;
  hireDateDraw : string
}.

Definition departments : list string :=
  ["Engineering"; "Marketing"; "Sales"; "HR"; "Finance"; "Operations"].

Definition positions (dept : string) : list string :=
  if (dept =? "Engineering")%string
  then ["Software Engineer"; "Senior Developer"; "Tech Lead"; "DevOps Engineer"]
  else if (dept =? "Marketing")%string
  then ["Marketing Manager"; "Content Creator"; "SEO Specialist"; "Brand Manager"]
  else if (dept =? "Sales")%string
  then ["Sales Representative"; "Account Manager"; "Sales Director";
        "Business Development"]
  else if (dept =? "HR")%string
  then ["HR Manager"; "Recruiter"; "HR Specialist"; "People Operations"]
  else if (dept =? "Finance")%string
  then ["Financial Analyst"; "Accountant"; "Finance Manager"; "Controller"]
  else ["Operations Manager"; "Project Manager"; "Operations Analyst";
        "Coordinator"].

(** [Employee.fromApiData(apiData)]; a draw is reduced to the range
    [Math.floor(Math.random() * n)] takes its values in. *)
Definition fromApiData (d : Draw) (apiData : User) : Employee :=
  let randomDepartment :=
    nth (departmentDraw d mod List.length departments) departments "" in
  let departmentPositions := positions randomDepartment in
  let randomPosition :=
    nth (positionDraw d mod List.length departmentPositions)
        departmentPositions "" in
  let baseSalary := salaryDraw d mod 80000 + 40000 in
  newEmployee (generatedId d) (now d)
    {| Data.id := userId apiData;
       Data.name := userName apiData;
       Data.email := userEmail apiData;
       Data.phone := userPhone apiData;
       Data.department := Some randomDepartment;
       Data.position := Some randomPosition;
       Data.salary := Some (Some baseSalary);
       Data.hireDate := Some (hireDateDraw d);
       Data.isActive := Some true;
       Data.avatar := None;
       Data.fullName := None;
       Data.displaySalary := None;
       Data.formattedPhone := None;
       Data.other := [] |}.

Definition mockRecord (i : Z) (name email phone department position : string)
    (salary : Z) (hireDate : string) : Data.t :=
  {| Data.id := Some (IdNum i);
     Data.name := Some name;
     Data.email := Some email;
     Data.phone := Some phone;
     Data.department := Some department;
     Data.position := Some position;
     Data.salary := Some (Some salary);
     Data.hireDate := Some hireDate;
     Data.isActive := None;
     Data.avatar := None;
     Data.fullName := None;
     Data.displaySalary := None;
     Data.formattedPhone := None;
     Data.other := [] |}.

Definition mockData : list Data.t :=
  [ mockRecord 1 "John Doe" "john.doe@company.com" "(555) 123-4567"
      "Engineering" "Senior Software Engineer" 95000 "2021-03-15T00:00:00.000Z";
    mockRecord 2 "Jane Smith" "jane.smith@company.com" "(555) 234-5678"
      "Marketing" "Marketing Manager" 75000 "2020-08-22T00:00:00.000Z";
    mockRecord 3 "Mike Johnson" "mike.johnson@company.com" "(555) 345-6789"
      "Sales" "Sales Representative" 60000 "2022-01-10T00:00:00.000Z";
    mockRecord 4 "Sarah Wilson" "sarah.wilson@company.com" "(555) 456-7890"
      "HR" "HR Manager" 70000 "2019-11-05T00:00:00.000Z";
    mockRecord 5 "David Brown" "david.brown@company.com" "(555) 567-8901"
      "Finance" "Financial Analyst" 65000 "2021-09-18T00:00:00.000Z" ].

(** [getMockEmployees()]; [env k] is the environment of the [k]-th call
    of the constructor. *)
Definition getMockEmployees (env : nat -> Draw) : list Employee :=
  map (fun kd => newEmployee (generatedId (env (fst kd))) (now (env (fst kd)))
                             (snd kd))
      (combine (seq 0 (List.length mockData)) mockData).

(** How a promise settles. *)
Inductive settled (A : Type) : Type :=
| Fulfilled (v : A)
| Rejected (message : string).
Arguments Fulfilled {A} v.
Arguments Rejected {A} message.

(** [fetchEmployees()], given how [this.fetchUsers()] settled. *)
Definition fetchEmployees (env : nat -> Draw) (users : settled (list User))
  : settled (list Employee) :=
  match users with
  | Fulfilled us =>
      Fulfilled (map (fun ku => fromApiData (env (fst ku)) (snd ku))
                     (combine (seq 0 (List.length us)) us))
  | Rejected _ => Fulfilled (getMockEmployees env)
  end.

End EmployeeAPI.

(** ** Vocabulary of the properties *)

(** The comparator lets [x] stand before [y]. *)
Definition before {A : Type} (cmp : A -> A -> Z) (x y : A) : Prop :=
  cmp x y <= 0.

(** The page invariant of the data model. *)
Definition pageInRange (c : EmployeeCollection) : Prop :=
  1 <= currentPage c <= Z.max 1 (getTotalPages c).

(** The stored view is the one derived from the current records and
    query state. *)
Definition viewCurrent (c : EmployeeCollection) : Prop :=
  filteredEmployees c = filteredView c.

(** Descending order of salaries with the missing ones in front: the order
    of [sortByProperty] for a direction other than ['asc']. *)
Definition descNullsFirst (a b : option Z) : Prop :=
  match a, b with
  | None, _ => True
  | Some _, None => False
  | Some x, Some y => y <= x
  end.

(** Descending order of salaries with the missing ones at the end: the
    order the specification's test describes. *)
Definition descNullsLast (a b : option Z) : Prop :=
  match a, b with
  | _, None => True
  | None, Some _ => False
  | Some x, Some y => y <= x
  end.

(** [t] occurs in [s]. *)
Definition occursIn (t s : string) : Prop :=
  exists pre post, s = pre ++ t ++ post.

(** The department predicate: no filter is set, or the record's
    department is one of the filters. *)
Definition passesDepartments (filters : list string) (e : Employee) : bool :=
  match filters with
  | [] => true
  | _ => inDepartments filters e
  end.

(** The value a key of [data] gives a field, or the field's own. *)
Definition pick {A : Type} (v : option A) (old : A) : A :=
  match v with
  | Some x => x
  | None => old
  end.

(** *** Sample inputs *)

Definition sampleEnv : nat -> ident * string :=
  fun _ => (IdStr "lq3x8k2f0b", "2024-05-01T09:00:00.000Z").

Definition sampleData (i : Z) (name email department : string) (salary : Z)
  : Data.t :=
  {| Data.id := Some (IdNum i);
     Data.name := Some name;
     Data.email := Some email;
     Data.phone := None;
     Data.department := Some department;
     Data.position := Some "Engineer";
     Data.salary := Some (Some salary);
     Data.hireDate := Some "2023-02-01T00:00:00.000Z";
     Data.isActive := None;
     Data.avatar := None;
     Data.fullName := None;
     Data.displaySalary := None;
     Data.formattedPhone := None;
     Data.other := [] |}.

Definition annData : Data.t := sampleData 1 "Ann" "ann@example.com" "Eng" 50000.
Definition benData : Data.t := sampleData 2 "Ben" "ben@example.com" "Eng" 60000.

Definition ann : Employee := newEmployee (IdStr "unused") "unused" annData.
Definition ben : Employee := newEmployee (IdStr "unused") "unused" benData.

(** Two records, one per page, the second page shown. *)
Definition twoPages : EmployeeCollection :=
  setCurrentPage 2
    (setPageSize 1
       (addObserver 7
          (loadEmployees sampleEnv [Plain annData; Plain benData] newCollection))).

(** The active flag alone, as the argument of [update]. *)
Definition inactiveFlag : Data.t :=
  {| Data.id := None; Data.name := None; Data.email := None;
     Data.phone := None; Data.department := None; Data.position := None;
     Data.salary := None; Data.hireDate := None; Data.isActive := Some false;
     Data.avatar := None; Data.fullName := None; Data.displaySalary := None;
     Data.formattedPhone := None; Data.other := [] |}.

(** [twoPages] after both records were removed. *)
Definition emptied : EmployeeCollection :=
  snd (removeEmployee (IdNum 1) (snd (removeEmployee (IdNum 2) twoPages))).

(** The test a record passes to be in the view. *)
Definition inView (term : string) (filters : list string) (e : Employee)
  : bool :=
  isActive e && matchesSearch e term && passesDepartments filters e.

Definition namedIn (name department : string) : Data.t :=
  {| Data.id := None; Data.name := Some name; Data.email := None;
     Data.phone := None; Data.department := Some department;
     Data.position := None; Data.salary := None; Data.hireDate := None;
     Data.isActive := None; Data.avatar := None; Data.fullName := None;
     Data.displaySalary := None; Data.formattedPhone := None;
     Data.other := [] |}.

(** The records of the search example. *)
Definition searchAnn : Employee :=
  newEmployee (fst (sampleEnv 0)) (snd (sampleEnv 0)) (namedIn "Ann" "Eng").
Definition searchBen : Employee :=
  newEmployee (fst (sampleEnv 1)) (snd (sampleEnv 1)) (namedIn "Ben" "Sales").

Definition searchExample : EmployeeCollection :=
  loadEmployees sampleEnv [Plain (namedIn "Ann" "Eng"); Plain (namedIn "Ben" "Sales")]
    newCollection.

(** The search example with the department filter set to Sales. *)
Definition salesOnly : EmployeeCollection :=
  setDepartmentFilters (Some ["Sales"]) searchExample.

(** A salary of [null], as the argument of [update]. *)
Definition nullSalary : Data.t :=
  {| Data.id := None; Data.name := None; Data.email := None;
     Data.phone := None; Data.department := None; Data.position := None;
     Data.salary := Some None; Data.hireDate := None; Data.isActive := None;
     Data.avatar := None; Data.fullName := None; Data.displaySalary := None;
     Data.formattedPhone := None; Data.other := [] |}.

(** Ann with a salary and Ben whose salary was set to [null]. *)
Definition oneNullSalary : EmployeeCollection :=
  stateOf (updateEmployee (IdNum 2) nullSalary
             (loadEmployees sampleEnv [Plain annData; Plain benData] newCollection)).

(** The comparator of a sort on [salary] in direction ['desc']. *)
Definition bySalaryDesc (a b : Employee) : Z :=
  Helpers.compareValues "desc" (getProp a "salary") (getProp b "salary").

(** Ann alone, then deactivated. *)
Definition annAlone : EmployeeCollection :=
  addObserver 7 (loadEmployees sampleEnv [Plain annData] newCollection).

Definition annInactive : EmployeeCollection :=
  snd (deactivateEmployee (IdNum 1) annAlone).

(** A new record whose email is Ann's in other letter case. *)
Definition annAgain : Data.t :=
  sampleData 3 "Ann Lee" "ANN@Example.com" "Sales" 40000.

(** Ann's own email in capitals, as the argument of [update]. *)
Definition upperEmail : Data.t :=
  {| Data.id := None; Data.name := None; Data.email := Some "ANN@EXAMPLE.COM";
     Data.phone := None; Data.department := None; Data.position := None;
     Data.salary := None; Data.hireDate := None; Data.isActive := None;
     Data.avatar := None; Data.fullName := None; Data.displaySalary := None;
     Data.formattedPhone := None; Data.other := [] |}.

(** The collection after [employee] was pushed, the view recomputed and
    the observers called. *)
Definition afterAdd (employee : Employee) (c : EmployeeCollection)
  : EmployeeCollection :=
  notifyObservers (applyFilters (withEmployees (employees c ++ [employee]) c)).

(** [data] with its unknown keys replaced. *)
Definition withOther (others : list (string * JS.value)) (data : Data.t)
  : Data.t :=
  Data.mk (Data.id data) (Data.name data) (Data.email data) (Data.phone data)
    (Data.department data) (Data.position data) (Data.salary data)
    (Data.hireDate data) (Data.isActive data) (Data.avatar data)
    (Data.fullName data) (Data.displaySalary data) (Data.formattedPhone data)
    others.

(** The object after the [forEach] of [update]. *)
Definition merged (e : Employee) (data : Data.t) : Employee :=
  {| id := id e;
     name := pick (Data.name data) (name e);
     email := pick (Data.email data) (email e);
     phone := pick (Data.phone data) (phone e);
     department := pick (Data.department data) (department e);
     position := pick (Data.position data) (position e);
     salary := pick (Data.salary data) (salary e);
     hireDate := pick (Data.hireDate data) (hireDate e);
     isActive := pick (Data.isActive data) (isActive e);
     avatar := pick (Data.avatar data) (avatar e);
     fullName := pick (Data.fullName data) (fullName e);
     displaySalary := pick (Data.displaySalary data) (displaySalary e);
     formattedPhone := pick (Data.formattedPhone data) (formattedPhone e) |}.

(** * Further parts of the code *)

(** ** models/EmployeeCollection.js: the other methods *)

Definition getAllEmployees (includeInactive : bool) (c : EmployeeCollection)
  : list Employee :=
  if includeInactive then employees c else filter isActive (employees c).

(** [[...new Set(l)]]: the first occurrence of each string, in order;
    [seen] holds the strings already met. *)
Fixpoint dedupe (seen l : list string) : list string :=
  match l with
  | [] => []
  | x :: l' =>
      if existsb (String.eqb x) seen then dedupe seen l'
      else x :: dedupe (x :: seen) l'
  end.

(** The comparison of [sort()] without a comparator, on strings: the order
    of the code units. *)
Definition defaultCompare (a b : string) : Z :=
  match String.compare a b with
  | Lt => -1
  | Eq => 0
  | Gt => 1
  end.

(** [dept && dept.trim()] *)
Definition notBlank (dept : string) : bool :=
  JS.nonEmpty dept && JS.nonEmpty (JS.trim dept).

Definition getUniqueDepartments (c : EmployeeCollection) : list string :=
  let departments :=
    filter notBlank (map department (filter isActive (employees c))) in
  JS.sort defaultCompare (dedupe [] departments).


(** ** Vocabulary of the further properties *)




(** The records shown on page [p]. *)
Definition pageOf (c : EmployeeCollection) (p : Z) : list Employee :=
  getCurrentPageEmployees (withCurrentPage p c).

(** The integers from [a] to [b]. *)
Definition fromTo (a b : Z) : list Z :=
  map (fun k => a + Z.of_nat k) (seq 0 (Z.to_nat (b - a + 1))).

(** No two records hold the same email, letter case apart. *)
Definition uniqueEmails (c : EmployeeCollection) : Prop :=
  NoDup (map (fun e => JS.toLowerCase (email e)) (employees c)).

(** The number of active records. *)
Definition activeCount (c : EmployeeCollection) : nat :=
  List.length (filter isActive (employees c)).



(** The comparator [sortByProperty] hands to [sort]. *)
Definition byProperty {A : Type} (get : A -> string -> JS.value)
    (property direction : string) (a b : A) : Z :=
  Helpers.compareValues direction (get a property) (get b property).

(** The order of case-folded strings in a direction. *)
Definition textOrder (direction : string) (s t : string) : Prop :=
  if (direction =? "asc")%string
  then String.leb (JS.toLowerCase s) (JS.toLowerCase t) = true
  else String.leb (JS.toLowerCase t) (JS.toLowerCase s) = true.

(** A property value that is compared as a number: a number, a boolean,
    or nothing. *)
Definition isNumeric (v : JS.value) : bool :=
  match v with
  | JS.Str _ => false
  | _ => true
  end.

Definition isText (v : JS.value) : bool :=
  match v with
  | JS.Str _ => true
  | _ => false
  end.

(** The number a numeric property value is compared as, [None] for
    [null] and [undefined]. *)
Definition numberOf (v : JS.value) : option Z :=
  if JS.isNullish v then None else JS.toNumber v.

(** Ascending order of numbers with the missing ones at the end. *)
Definition ascNullsLast (a b : option Z) : Prop :=
  match a, b with
  | _, None => True
  | None, Some _ => False
  | Some x, Some y => x <= y
  end.

Definition numberOrder (direction : string) (a b : option Z) : Prop :=
  if (direction =? "asc")%string then ascNullsLast a b else descNullsFirst a b.

(** ** utils/helpers.js: searching an array *)

(** [value.toString()] of a property value that is not [null] or
    [undefined]; a number is an integer below 10^21 in absolute value,
    which prints as its decimal digits. *)
Definition valueToString (v : JS.value) : string :=
  match v with
  | JS.Str s => s
  | JS.Num n =>
      if n <? 0 then "-" ++ JS.decimal (Z.to_N (- n)) else JS.decimal (Z.to_N n)
  | JS.Bool b => if b then "true" else "false"
  | JS.Null => "null"
  | JS.Undefined => "undefined"
  end.

Definition filterBySearch {A : Type} (get : A -> string -> JS.value)
    (array : list A) (searchTerm : string) (searchFields : list string)
  : list A :=
  if negb (JS.nonEmpty searchTerm) then array
  else
    let term := JS.toLowerCase searchTerm in
    filter
      (fun item =>
         existsb
           (fun field =>
              let value := get item field in
              negb (JS.isNullish value)
              && JS.includes (JS.toLowerCase (valueToString value)) term)
           searchFields)
      array.

(** ** models/Employee.js: the plain object of an employee *)

Definition toObject (e : Employee) : Data.t :=
  {| Data.id := Some (id e);
     Data.name := Some (name e);
     Data.email := Some (email e);
     Data.phone := Some (phone e);
     Data.department := Some (department e);
     Data.position := Some (position e);
     Data.salary := Some (salary e);
     Data.hireDate := Some (hireDate e);
     Data.isActive := Some (isActive e);
     Data.avatar := Some (avatar e);
     Data.fullName := None;
     Data.displaySalary := None;
     Data.formattedPhone := None;
     Data.other := [] |}.

Definition belongsToDepartment (e : Employee) (dept : string) : bool :=
  if negb (JS.nonEmpty dept) then true else (department e =? dept)%string.

(** The fields the search reads, by name. *)
Definition searchKeys : list string :=
  ["name"; "email"; "department"; "position"; "phone"].

(** The shape the regular expression of [isValidEmail] asks for:
    a run, an at sign, a run, a dot, a run. *)
Definition emailShape (l : list ascii) : Prop :=
  exists a b c,
    l = (a ++ "@"%char :: b ++ "."%char :: c)%list
    /\ Helpers.plainRun a = true /\ Helpers.plainRun b = true
    /\ Helpers.plainRun c = true.

(** The validation messages that concern what a remote user record
    supplies. *)
Definition userMessages : list string :=
  ["Name must be at least 2 characters long";
   "Valid email address is required";
   "Phone number format is invalid"].

(** ** services/DataService.js: the write workflows *)

Module DataService.

(** What an event carries. *)
Inductive payload : Type :=
| OfData (data : Data.t)
| OfUpdate (i : ident) (data : Data.t)
| OfEmployee (e : Employee)
| OfDelete (i : ident) (e : Employee)
| OfError (message : string)
| OfLoading (isLoading : bool)
| OfCount (employeeCount : nat).

(** What a workflow does to the world around the service: an event
    handed to the observers, a toast, the loading overlay shown or hidden,
    the warning logged when a remote write fails.  Other logging is left
    out. *)
Inductive effect : Type :=
| Event (name : string) (data : payload)
| Toast (message kind : string)
| Overlay (show : bool)
| Warning (message : string).

Record t : Type := mk {
  employeeCollection : EmployeeCollection;
  isLoading : bool;
  lastSync : option string;
  effects : list effect
}.

Definition withCollection (c : EmployeeCollection) (s : t) : t :=
  mk c (isLoading s) (lastSync s) (effects s).

Definition withLastSync (date : string) (s : t) : t :=
  mk (employeeCollection s) (isLoading s) (Some date) (effects s).

Definition emit (x : effect) (s : t) : t :=
  mk (employeeCollection s) (isLoading s) (lastSync s) (effects s ++ [x]).

(** [notifyObservers(event, data)] *)
Definition notify (name : string) (data : payload) (s : t) : t :=
  emit (Event name data) s.

Definition setLoading (loading : bool) (s : t) : t :=
  if Bool.eqb (isLoading s) loading then s
  else
    let s := mk (employeeCollection s) loading (lastSync s) (effects s) in
    let s := notify "loading_changed" (OfLoading loading) s in
    emit (Overlay loading) s.

(** How a workflow ends: it returns a value or rejects with an error. *)
Inductive outcome (A : Type) : Type :=
| Done (v : A) (s : t)
| Failed (message : string) (s : t).
Arguments Done {A} v s.
Arguments Failed {A} message s.

Definition serviceOf {A : Type} (r : outcome A) : t :=
  match r with
  | Done _ s => s
  | Failed _ s => s
  end.

(** The [catch] and [finally] blocks the three write workflows share:
    [what] is add, update or delete. *)
Definition settle {A : Type} (what : string) (r : outcome A) : outcome A :=
  match r with
  | Done v s => Done v (setLoading false s)
  | Failed message s =>
      let s := notify (what ++ "_error") (OfError message) s in
      let s := emit (Toast ("Failed to " ++ what ++ " employee: " ++ message)
                           "error") s in
      Failed message (setLoading false s)
  end.

(** The [catch] around a remote write: [failure] is the message of the
    error the adapter rejected with, if it did; the failure is logged as a
    warning and the workflow goes on. *)
Definition absorbed (text : string) (failure : option string) (s : t) : t :=
  match failure with
  | Some message => emit (Warning (text ++ " " ++ message)) s
  | None => s
  end.

Definition addEmployee (generatedId : ident) (now : string)
    (employeeData : Data.t) (failure : option string) (s : t)
  : outcome Employee :=
  let s := setLoading true s in
  let s := notify "add_start" (OfData employeeData) s in
  let employee := newEmployee generatedId now employeeData in
  let validation := validate employee in
  settle "add"
    (if negb (isValid validation)
     then Failed (String.concat ", " (errors validation)) s
     else
       let s :=
         absorbed "API create failed, continuing with local add:" failure s in
       match addEmployee generatedId now (Instance employee)
               (employeeCollection s) with
       | Threw message c => Failed message (withCollection c s)
       | Returned addedEmployee c =>
           let s := withCollection c s in
           let s := notify "add_complete" (OfEmployee addedEmployee) s in
           let s := emit (Toast ("Employee " ++ name addedEmployee
                                   ++ " added successfully") "success") s in
           Done addedEmployee s
       end).

(** [{...employeeData, id}] *)
Definition withId (i : ident) (data : Data.t) : Data.t :=
  Data.mk (Some i) (Data.name data) (Data.email data) (Data.phone data)
    (Data.department data) (Data.position data) (Data.salary data)
    (Data.hireDate data) (Data.isActive data) (Data.avatar data)
    (Data.fullName data) (Data.displaySalary data) (Data.formattedPhone data)
    (Data.other data).

Definition updateEmployee (generatedId : ident) (now : string) (i : ident)
    (employeeData : Data.t) (failure : option string) (s : t)
  : outcome Employee :=
  let s := setLoading true s in
  let s := notify "update_start" (OfUpdate i employeeData) s in
  let tempEmployee := newEmployee generatedId now (withId i employeeData) in
  let validation := validate tempEmployee in
  settle "update"
    (if negb (isValid validation)
     then Failed (String.concat ", " (errors validation)) s
     else
       let s :=
         absorbed "API update failed, continuing with local update:"
                  failure s in
       match updateEmployee i employeeData (employeeCollection s) with
       | Threw message c => Failed message (withCollection c s)
       | Returned None c => Failed "Employee not found" (withCollection c s)
       | Returned (Some updatedEmployee) c =>
           let s := withCollection c s in
           let s := notify "update_complete" (OfEmployee updatedEmployee) s in
           let s := emit (Toast ("Employee " ++ name updatedEmployee
                                   ++ " updated successfully") "success") s in
           Done updatedEmployee s
       end).

Definition deleteEmployee (i : ident) (failure : option string) (s : t)
  : outcome bool :=
  let s := setLoading true s in
  settle "delete"
    (match findById (employeeCollection s) i with
     | None => Failed "Employee not found" s
     | Some employee =>
         let s := notify "delete_start" (OfDelete i employee) s in
         let s :=
           absorbed "API delete failed, continuing with local delete:"
                    failure s in
         let (success, c) := removeEmployee i (employeeCollection s) in
         let s := withCollection c s in
         if negb success
         then Failed "Failed to remove employee from collection" s
         else
           let s := notify "delete_complete" (OfDelete i employee) s in
           let s := emit (Toast ("Employee " ++ name employee
                                   ++ " deleted successfully") "success") s in
           Done true s
     end).

End DataService.

(** A call of a write workflow of the service. *)
Inductive workflow : Type :=
| Add (generatedId : ident) (now : string) (employeeData : Data.t)
| Update (generatedId : ident) (now : string) (i : ident) (employeeData : Data.t)
| Delete (i : ident).

(** The error the workflow rejected with, if it did, and the service
    afterwards; [failure] tells how the remote write went. *)
Definition perform (w : workflow) (failure : option string)
    (s : DataService.t) : option string * DataService.t :=
  match w with
  | Add generatedId now employeeData =>
      match DataService.addEmployee generatedId now employeeData failure s with
      | DataService.Done _ s' => (None, s')
      | DataService.Failed message s' => (Some message, s')
      end
  | Update generatedId now i employeeData =>
      match DataService.updateEmployee generatedId now i employeeData
              failure s with
      | DataService.Done _ s' => (None, s')
      | DataService.Failed message s' => (Some message, s')
      end
  | Delete i =>
      match DataService.deleteEmployee i failure s with
      | DataService.Done _ s' => (None, s')
      | DataService.Failed message s' => (Some message, s')
      end
  end.

(** The effects without the warnings. *)
Definition withoutWarnings (l : list DataService.effect)
  : list DataService.effect :=
  filter (fun x => match x with DataService.Warning _ => false | _ => true end) l.

(** The error an outcome rejected with, if it did. *)
Definition errorOf {A : Type} (r : DataService.outcome A) : option string :=
  match r with
  | DataService.Done _ _ => None
  | DataService.Failed m _ => Some m
  end.


(** The service with the warnings taken out of its effects. *)
Definition quiet (s : DataService.t) : DataService.t :=
  DataService.mk (DataService.employeeCollection s) (DataService.isLoading s)
    (DataService.lastSync s) (withoutWarnings (DataService.effects s)).

(** ** components/PaginationComponent.js: the page buttons *)

Inductive pageItem : Type :=
| PageNumber (n : Z)
| Ellipsis.

(** [generatePageNumbers()], given the two fields of [paginationInfo] it
    reads; a [for] loop from [a] to [b] pushes the pages [fromTo a b]. *)
Definition generatePageNumbers (currentPage totalPages : Z) : list pageItem :=
  let maxVisible := 7 in
  if totalPages <=? maxVisible then map PageNumber (fromTo 1 totalPages)
  else
    ([PageNumber 1]
       ++ (if currentPage <=? 4 then
             map PageNumber (fromTo 2 (Z.min 5 (totalPages - 1)))
               ++ (if 5 <? totalPages then [Ellipsis] else [])
           else if totalPages - 3 <=? currentPage then
             (if 5 <? totalPages then [Ellipsis] else [])
               ++ map PageNumber
                    (fromTo (Z.max (totalPages - 4) 2) (totalPages - 1))
           else
             [Ellipsis]
               ++ map PageNumber (fromTo (currentPage - 1) (currentPage + 1))
               ++ [Ellipsis])
       ++ (if 1 <? totalPages then [PageNumber totalPages] else []))%list.

(** The page numbers among the buttons, in order. *)
Fixpoint numbersOf (l : list pageItem) : list Z :=
  match l with
  | [] => []
  | PageNumber n :: l' => n :: numbersOf l'
  | Ellipsis :: l' => numbersOf l'
  end.

(** * Properties *)

(** ** The helpers on known values *)

Example formatCurrency_values :
  map Helpers.formatCurrency [Some 95000; Some 1234567; Some 999; Some 0; None]
  = ["$95,000"; "$1,234,567"; "$999"; "$0"; "$0"].
Proof. reflexivity. Qed.

Example formatPhone_values :
  map Helpers.formatPhone ["5551234567"; "(555) 123-4567"; "12345"; ""]
  = ["(555) 123-4567"; "(555) 123-4567"; "12345"; ""].
Proof. reflexivity. Qed.

Example isValidEmail_values :
  map Helpers.isValidEmail
      ["a@b.c"; "john.doe@company.com"; "a@b"; "a b@c.d"; "a@@b.c"; "a@b."; "@b.c"]
  = [true; true; false; false; false; false; false].
Proof. reflexivity. Qed.

Example isValidPhone_values :
  map Helpers.isValidPhone ["(555) 123-4567"; ""; "012"; "12345678901234567"]
  = [true; true; false; false].
Proof. reflexivity. Qed.

Example sortByProperty_names :
  map name
    (Helpers.sortByProperty getProp
       [setName "carl" ann; setName "Bob" ann; setName "alice" ann] "name" "asc")
  = ["alice"; "Bob"; "carl"]
  /\ map name
       (Helpers.sortByProperty getProp
          [setName "carl" ann; setName "Bob" ann; setName "alice" ann]
          "name" "desc")
     = ["carl"; "Bob"; "alice"].
Proof. split; reflexivity. Qed.

(** ** The sort *)

Section SortFacts.
Context {A : Type} (cmp : A -> A -> Z).

Lemma insert_perm (x : A) (l : list A) :
  Permutation (JS.insert cmp x l) (x :: l).
Proof.
  induction l as [|y l IH]; simpl.
  - apply Permutation_refl.
  - destruct (cmp x y <=? 0).
    + apply Permutation_refl.
    + eapply Permutation_trans.
      * apply perm_skip. exact IH.
      * apply perm_swap.
Qed.

Lemma sort_perm (l : list A) : Permutation (JS.sort cmp l) l.
Proof.
  induction l as [|x l IH]; simpl.
  - constructor.
  - eapply Permutation_trans.
    + apply insert_perm.
    + apply perm_skip. exact IH.
Qed.

Lemma sort_length (l : list A) : List.length (JS.sort cmp l) = List.length l.
Proof. apply Permutation_length, sort_perm. Qed.

Lemma sort_In (l : list A) (x : A) : In x (JS.sort cmp l) <-> In x l.
Proof.
  split; apply Permutation_in.
  - apply sort_perm.
  - apply Permutation_sym, sort_perm.
Qed.

Hypothesis before_total : forall x y, before cmp x y \/ before cmp y x.
Hypothesis before_trans :
  forall x y z, before cmp x y -> before cmp y z -> before cmp x z.

Lemma insert_sorted (x : A) (l : list A) :
  StronglySorted (before cmp) l -> StronglySorted (before cmp) (JS.insert cmp x l).
Proof.
  induction l as [|y l IH]; simpl; intros Hs.
  - constructor; constructor.
  - inversion Hs as [|? ? Hs' Hall]; subst.
    destruct (cmp x y <=? 0) eqn:E.
    + apply Z.leb_le in E.
      constructor; [exact Hs|].
      constructor; [exact E|].
      eapply Forall_impl; [|exact Hall].
      intros z Hz. eapply before_trans; eassumption.
    + apply Z.leb_gt in E.
      assert (Hyx : before cmp y x).
      { destruct (before_total x y) as [H|H]; [unfold before in H; lia|exact H]. }
      constructor; [apply IH; exact Hs'|].
      apply Forall_forall. intros z Hz.
      apply (Permutation_in _ (insert_perm x l)) in Hz.
      destruct Hz as [<-|Hz]; [exact Hyx|].
      rewrite Forall_forall in Hall. apply Hall; exact Hz.
Qed.

Lemma sort_sorted (l : list A) : StronglySorted (before cmp) (JS.sort cmp l).
Proof.
  induction l as [|x l IH]; simpl.
  - constructor.
  - apply insert_sorted; exact IH.
Qed.
End SortFacts.

(** ** The view *)

Lemma filter_twice {A : Type} (f g : A -> bool) (l : list A) :
  filter f (filter g l) = filter (fun x => g x && f x) l.
Proof.
  induction l as [|x l IH]; simpl; [reflexivity|].
  destruct (g x); simpl; [destruct (f x)|]; rewrite IH; reflexivity.
Qed.

Lemma matchesSearch_empty (e : Employee) : matchesSearch e "" = true.
Proof. reflexivity. Qed.

Lemma filter_search (term : string) (l : list Employee) :
  (if JS.nonEmpty term then filter (fun emp => matchesSearch emp term) l else l)
  = filter (fun emp => matchesSearch emp term) l.
Proof.
  destruct term as [|a t]; simpl; [|reflexivity].
  induction l as [|x l IH]; simpl; [reflexivity|]. rewrite <- IH. reflexivity.
Qed.

Lemma filter_departments (filters : list string) (l : list Employee) :
  (if (0 <? List.length filters)%nat then filter (inDepartments filters) l else l)
  = filter (passesDepartments filters) l.
Proof.
  destruct filters as [|d ds]; simpl; [|reflexivity].
  induction l as [|x l IH]; simpl; [reflexivity|]. rewrite <- IH. reflexivity.
Qed.

(** The view is the sorted array of the records that pass the three
    tests. *)
Lemma filteredView_sorted_filter (c : EmployeeCollection) :
  filteredView c =
  Helpers.sortByProperty getProp
    (filter (inView (searchTerm c) (departmentFilters c)) (employees c))
    (sortField c) (sortDirection c).
Proof.
  unfold filteredView. rewrite filter_search, filter_departments.
  rewrite !filter_twice. unfold Helpers.sortByProperty. f_equal.
  apply filter_ext. intros e. unfold inView. apply andb_assoc.
Qed.

Lemma filteredView_perm (c : EmployeeCollection) :
  Permutation (filteredView c)
    (filter (inView (searchTerm c) (departmentFilters c)) (employees c)).
Proof. rewrite filteredView_sorted_filter. apply sort_perm. Qed.

Lemma filteredView_In (c : EmployeeCollection) (e : Employee) :
  In e (filteredView c) <->
  In e (employees c) /\ isActive e = true
  /\ matchesSearch e (searchTerm c) = true
  /\ passesDepartments (departmentFilters c) e = true.
Proof.
  rewrite filteredView_sorted_filter. unfold Helpers.sortByProperty.
  rewrite sort_In, filter_In. unfold inView. rewrite !andb_true_iff. tauto.
Qed.

(** C2, [setSorting] on a collection that shows its second page: the page
    is still the second one afterwards. *)
Lemma setSorting_keeps_second_page :
  currentPage twoPages = 2
  /\ currentPage (setSorting "salary" (Some "desc") twoPages) <> 1.
Proof. split; [reflexivity|]. vm_compute. discriminate. Qed.

(** C2, as the code has it.  [setSearchTerm] and [setDepartmentFilters]
    store their argument, go back to page 1, recompute the view from the
    unchanged records and call every observer once; [setSorting] stores
    its arguments, recomputes the view and calls every observer once, and
    leaves the page where it was. *)
Theorem query_setters_recompute_and_notify (c : EmployeeCollection) :
  (forall term,
      let c' := setSearchTerm term c in
      searchTerm c' = term /\ currentPage c' = 1
      /\ employees c' = employees c /\ viewCurrent c'
      /\ calls c' = (calls c ++ observers c)%list)
  /\ (forall departments,
      let c' := setDepartmentFilters departments c in
      departmentFilters c' = match departments with Some l => l | None => [] end
      /\ currentPage c' = 1
      /\ employees c' = employees c /\ viewCurrent c'
      /\ calls c' = (calls c ++ observers c)%list)
  /\ (forall field direction,
      let c' := setSorting field direction c in
      sortField c' = field
      /\ sortDirection c' = match direction with Some d => d | None => "asc" end
      /\ currentPage c' = currentPage c
      /\ employees c' = employees c /\ viewCurrent c'
      /\ calls c' = (calls c ++ observers c)%list).
Proof.
  repeat split.
Qed.

(** ** Search *)

Lemma prefix_spec (t s : string) :
  String.prefix t s = true <-> exists post, s = t ++ post.
Proof.
  revert s. induction t as [|a t IH]; intros s.
  - split; [intros _; exists s; reflexivity|intros _; destruct s; reflexivity].
  - destruct s as [|b s]; simpl.
    + split; [discriminate|intros [post H]; discriminate H].
    + destruct (ascii_dec a b) as [->|Hab].
      * rewrite IH. split; intros [post H]; exists post.
        -- rewrite H. reflexivity.
        -- injection H as H. exact H.
      * split; [discriminate|].
        intros [post H]. injection H as Hb _. congruence.
Qed.

Lemma includes_spec (s t : string) : JS.includes s t = true <-> occursIn t s.
Proof.
  unfold occursIn. induction s as [|c s IH].
  - cbn [JS.includes]. rewrite orb_false_r, prefix_spec. split.
    + intros [post H]. exists "", post. exact H.
    + intros [pre [post H]]. destruct pre as [|a pre]; [|discriminate H].
      exists post. exact H.
  - cbn [JS.includes]. rewrite orb_true_iff, prefix_spec, IH. split.
    + intros [[post H]|[pre [post H]]].
      * exists "", post. exact H.
      * exists (String c pre), post. simpl. rewrite H. reflexivity.
    + intros [pre [post H]]. destruct pre as [|a pre].
      * left. exists post. exact H.
      * right. simpl in H. injection H as _ H. exists pre, post. exact H.
Qed.

Lemma nonEmpty_true (s : string) : JS.nonEmpty s = true <-> s <> "".
Proof. destruct s; simpl; split; congruence. Qed.

Lemma toLowerCase_empty (s : string) : JS.toLowerCase s = "" <-> s = "".
Proof. destruct s; simpl; split; congruence. Qed.

Lemma occursIn_empty (t : string) : occursIn t "" -> t = "".
Proof.
  intros [pre [post H]]. destruct pre; [|discriminate H].
  destruct t; [reflexivity|discriminate H].
Qed.

(** A record matches a term when the term is empty or one of the five
    searched fields contains it, letter case apart. *)
Lemma matchesSearch_spec (e : Employee) (term : string) :
  matchesSearch e term = true <->
  term = "" \/
  exists field, In field (searchFields e)
                /\ occursIn (JS.toLowerCase term) (JS.toLowerCase field).
Proof.
  unfold matchesSearch. destruct (JS.nonEmpty term) eqn:Ht; cbn [negb].
  - apply nonEmpty_true in Ht. rewrite existsb_exists. split.
    + intros [field [Hin H]]. right. exists field. split; [exact Hin|].
      apply andb_true_iff in H. apply includes_spec. apply H.
    + intros [H|[field [Hin H]]]; [contradiction|].
      exists field. split; [exact Hin|]. apply andb_true_iff. split.
      * apply nonEmpty_true. intros ->. apply occursIn_empty in H.
        apply -> toLowerCase_empty in H. contradiction.
      * apply includes_spec. exact H.
  - split; [intros _; left|reflexivity].
    destruct term; [reflexivity|discriminate Ht].
Qed.

(** C6, with a department filter set: Ann is active and matches the empty
    term, and is not in the view. *)
Lemma search_alone_does_not_decide_view :
  ~ (forall e,
        In e (filteredEmployees (setSearchTerm "" salesOnly)) <->
        In e (employees (setSearchTerm "" salesOnly))
        /\ isActive e = true /\ matchesSearch e "" = true).
Proof.
  intros H. destruct (H searchAnn) as [_ Hin].
  assert (Hview : In searchAnn (filteredEmployees (setSearchTerm "" salesOnly))).
  { apply Hin. split; [left; reflexivity|split; reflexivity]. }
  vm_compute in Hview. destruct Hview as [Hview|[]]. discriminate Hview.
Qed.

(** C6, as the code has it.  After [setSearchTerm] the view holds exactly
    the records that are active, match the term and pass the department
    filter (every record passes when no filter is set); a record matches
    a term when the term is empty or one of its name, email, department,
    position and phone contains it, letter case apart.  On the records Ann
    of Eng and Ben of Sales, the term eng gives Ann alone and the empty
    term gives both. *)
Theorem search_view_characterised :
  (forall c term,
      let c' := setSearchTerm term c in
      Permutation (filteredEmployees c')
        (filter (inView term (departmentFilters c)) (employees c))
      /\ forall e,
          In e (filteredEmployees c') <->
          In e (employees c) /\ isActive e = true
          /\ matchesSearch e term = true
          /\ passesDepartments (departmentFilters c) e = true)
  /\ (forall e, passesDepartments [] e = true)
  /\ (forall e term,
      matchesSearch e term = true <->
      term = "" \/
      exists field, In field [name e; email e; department e; position e; phone e]
                    /\ occursIn (JS.toLowerCase term) (JS.toLowerCase field))
  /\ employees searchExample = [searchAnn; searchBen]
  /\ filteredEmployees (setSearchTerm "eng" searchExample) = [searchAnn]
  /\ filteredEmployees (setSearchTerm "" searchExample) = [searchAnn; searchBen].
Proof.
  split; [|split; [|split; [|repeat split]]].
  - intros c term c'. split.
    + apply (filteredView_perm (withCurrentPage 1 (withSearchTerm term c))).
    + intros e.
      apply (filteredView_In (withCurrentPage 1 (withSearchTerm term c))).
  - reflexivity.
  - intros e term. apply matchesSearch_spec.
Qed.

(** ** Sorting by salary *)

Lemma bySalaryDesc_before (a b : Employee) :
  before bySalaryDesc a b <-> descNullsFirst (salary a) (salary b).
Proof.
  unfold before, bySalaryDesc.
  change (getProp a "salary")
    with (match salary a with Some n => JS.Num n | None => JS.Null end).
  change (getProp b "salary")
    with (match salary b with Some n => JS.Num n | None => JS.Null end).
  unfold Helpers.compareValues.
  destruct (salary a) as [x|], (salary b) as [y|]; simpl.
  - destruct (y <? x) eqn:E1; [apply Z.ltb_lt in E1; lia|].
    destruct (x <? y) eqn:E2; [apply Z.ltb_lt in E2; lia|].
    apply Z.ltb_ge in E1, E2. lia.
  - lia.
  - lia.
  - lia.
Qed.

Lemma descNullsFirst_total (a b : option Z) :
  descNullsFirst a b \/ descNullsFirst b a.
Proof. destruct a, b; simpl; try tauto. lia. Qed.

Lemma descNullsFirst_trans (a b c : option Z) :
  descNullsFirst a b -> descNullsFirst b c -> descNullsFirst a c.
Proof. destruct a, b, c; simpl; try tauto. lia. Qed.

Lemma StronglySorted_map {A B : Type} (f : A -> B) (S : A -> A -> Prop)
    (R : B -> B -> Prop) (l : list A) :
  (forall x y, S x y -> R (f x) (f y)) ->
  StronglySorted S l -> StronglySorted R (map f l).
Proof.
  intros HSR. induction 1 as [|x l Hs IH Hall]; simpl; constructor.
  - exact IH.
  - apply Forall_map. eapply Forall_impl; [|exact Hall].
    intros y. apply HSR.
Qed.

Lemma sort_bySalaryDesc_sorted (l : list Employee) :
  StronglySorted descNullsFirst (map salary (JS.sort bySalaryDesc l)).
Proof.
  apply (StronglySorted_map salary (before bySalaryDesc)).
  - intros a b H. apply bySalaryDesc_before. exact H.
  - apply sort_sorted.
    + intros x y. rewrite !bySalaryDesc_before. apply descNullsFirst_total.
    + intros x y z. rewrite !bySalaryDesc_before. apply descNullsFirst_trans.
Qed.

(** C7, on Ann with a salary and Ben whose salary is [null]: the sort puts
    Ben first, so the salaries are not in descending order with the missing
    ones at the end. *)
Lemma salary_desc_null_not_last :
  map salary (filteredEmployees (setSorting "salary" (Some "desc") oneNullSalary))
  = [None; Some 50000]
  /\ ~ StronglySorted descNullsLast
       (map salary
          (filteredEmployees (setSorting "salary" (Some "desc") oneNullSalary))).
Proof.
  assert (H : map salary
                (filteredEmployees
                   (setSorting "salary" (Some "desc") oneNullSalary))
              = [None; Some 50000]) by (vm_compute; reflexivity).
  split; [exact H|]. rewrite H. intros Hs.
  inversion Hs as [|? ? _ Hall]; subst.
  inversion Hall as [|? ? Hhead _]; subst. exact Hhead.
Qed.

(** C7, as the code has it.  After [setSorting("salary", "desc")] the view
    holds the records that pass the filters, those whose salary is [null]
    first and the others after them by salary, largest first. *)
Theorem salary_desc_sorted_nulls_first (c : EmployeeCollection) :
  let c' := setSorting "salary" (Some "desc") c in
  StronglySorted descNullsFirst (map salary (filteredEmployees c'))
  /\ Permutation (filteredEmployees c')
       (filter (inView (searchTerm c) (departmentFilters c)) (employees c)).
Proof.
  intros c'. split.
  - unfold c', setSorting, notifyObservers, applyFilters.
    cbn [filteredEmployees withCalls withFiltered].
    rewrite filteredView_sorted_filter.
    apply sort_bySalaryDesc_sorted.
  - apply (filteredView_perm
             (withSortDirection "desc" (withSortField "salary" c))).
Qed.

(** ** Updating a record *)

Lemma fold_present {A : Type} (key : string) (v : option A)
    (set : A -> Employee -> Employee) (data : Data.t) (e0 : Employee) :
  (forall e, mergeKey data e key = assignWith set v e) ->
  fold_left (mergeKey data) (Data.present key v) e0 = assignWith set v e0.
Proof. intros H. destruct v; simpl; [apply H|reflexivity]. Qed.

Lemma fold_present_id (data : Data.t) (e0 : Employee) :
  fold_left (mergeKey data) (Data.present "id" (Data.id data)) e0 = e0.
Proof. destruct (Data.id data); reflexivity. Qed.

Lemma assignWith_pick {A : Type} (set : A -> Employee -> Employee)
    (get : Employee -> A) (v : option A) (e : Employee) :
  set (get e) e = e -> assignWith set v e = set (pick v (get e)) e.
Proof. intros H. destruct v; simpl; [reflexivity|symmetry; exact H]. Qed.

(** A key that [data] has and the object owns leaves the merged object as
    it is; so does a key the object does not own. *)
Lemma mergeKey_merged (e : Employee) (data : Data.t) (key : string) :
  mergeKey data (merged e data) key = merged e data.
Proof.
  destruct e as [i n em ph dp po sa hd ac av fn ds fp].
  destruct data as [di dn de dph dd dpo dsa dhd dac dav dfn dds dfp dother].
  unfold mergeKey, assign, hasOwnProperty, ownKeys, merged.
  cbn [existsb Data.id Data.name Data.email Data.phone Data.department
       Data.position Data.salary Data.hireDate Data.isActive Data.avatar
       Data.fullName Data.displaySalary Data.formattedPhone
       id name email phone department position salary hireDate isActive
       avatar fullName displaySalary formattedPhone].
  repeat match goal with
         | |- context [String.eqb key ?s] =>
             destruct (String.eqb key s); cbn [orb andb negb];
             [solve [ reflexivity
                    | match goal with
                      | |- assignWith _ ?v _ = _ => destruct v; reflexivity
                      end ]
             |]
         end.
  reflexivity.
Qed.

Lemma fold_mergeKey_merged (e : Employee) (data : Data.t) (keys : list string) :
  fold_left (mergeKey data) keys (merged e data) = merged e data.
Proof.
  induction keys as [|k keys IH]; simpl; [reflexivity|].
  rewrite mergeKey_merged. exact IH.
Qed.

(** The [forEach] of [update] in closed form. *)
Lemma fold_mergeKey_keys (e : Employee) (data : Data.t) :
  fold_left (mergeKey data) (Data.keys data) e = merged e data.
Proof.
  unfold Data.keys. rewrite !fold_left_app.
  rewrite fold_present_id.
  rewrite (fold_present "name" _ setName) by (intros; reflexivity).
  rewrite (fold_present "email" _ setEmail) by (intros; reflexivity).
  rewrite (fold_present "phone" _ setPhone) by (intros; reflexivity).
  rewrite (fold_present "department" _ setDepartment) by (intros; reflexivity).
  rewrite (fold_present "position" _ setPosition) by (intros; reflexivity).
  rewrite (fold_present "salary" _ setSalary) by (intros; reflexivity).
  rewrite (fold_present "hireDate" _ setHireDate) by (intros; reflexivity).
  rewrite (fold_present "isActive" _ setIsActive) by (intros; reflexivity).
  rewrite (fold_present "avatar" _ setAvatar) by (intros; reflexivity).
  rewrite (fold_present "fullName" _ setFullName) by (intros; reflexivity).
  rewrite (fold_present "displaySalary" _ setDisplaySalary)
    by (intros; reflexivity).
  rewrite (fold_present "formattedPhone" _ setFormattedPhone)
    by (intros; reflexivity).
  destruct e as [i n em ph dp po sa hd ac av fn ds fp].
  rewrite (assignWith_pick setName name) by reflexivity.
  rewrite (assignWith_pick setEmail email) by reflexivity.
  rewrite (assignWith_pick setPhone phone) by reflexivity.
  rewrite (assignWith_pick setDepartment department) by reflexivity.
  rewrite (assignWith_pick setPosition position) by reflexivity.
  rewrite (assignWith_pick setSalary salary) by reflexivity.
  rewrite (assignWith_pick setHireDate hireDate) by reflexivity.
  rewrite (assignWith_pick setIsActive isActive) by reflexivity.
  rewrite (assignWith_pick setAvatar avatar) by reflexivity.
  rewrite (assignWith_pick setFullName fullName) by reflexivity.
  rewrite (assignWith_pick setDisplaySalary displaySalary) by reflexivity.
  rewrite (assignWith_pick setFormattedPhone formattedPhone) by reflexivity.
  apply (fold_mergeKey_merged (mkEmployee i n em ph dp po sa hd ac av fn ds fp)).
Qed.

Lemma update_closed_form (e : Employee) (data : Data.t) :
  update e data = recompute (merged e data).
Proof. unfold update. rewrite fold_mergeKey_keys. reflexivity. Qed.

(** C10.  [update] leaves [id] as it is; each other source field takes
    the value [data] has for its key, or keeps its own when [data] has no
    such key; the four display fields are computed from the source fields
    after the merge; keys the record does not own change nothing. *)
Theorem update_merges_owned_keys (e : Employee) (data : Data.t) :
  let e' := update e data in
  id e' = id e
  /\ (name e' = pick (Data.name data) (name e)
      /\ email e' = pick (Data.email data) (email e)
      /\ phone e' = pick (Data.phone data) (phone e)
      /\ department e' = pick (Data.department data) (department e)
      /\ position e' = pick (Data.position data) (position e)
      /\ salary e' = pick (Data.salary data) (salary e)
      /\ hireDate e' = pick (Data.hireDate data) (hireDate e)
      /\ isActive e' = pick (Data.isActive data) (isActive e))
  /\ (fullName e' = name e'
      /\ displaySalary e' = Helpers.formatCurrency (salary e')
      /\ formattedPhone e' = Helpers.formatPhone (phone e')
      /\ avatar e' = generateAvatar (name e'))
  /\ (forall others, update e (withOther others data) = update e data).
Proof.
  intros e'. unfold e'. rewrite update_closed_form.
  split; [reflexivity|]. split; [repeat split|]. split; [repeat split|].
  intros others. rewrite !update_closed_form. reflexivity.
Qed.

(** ** Emails *)

Lemma find_isSome {A : Type} (p : A -> bool) (l : list A) :
  isSome (find p l) = existsb p l.
Proof.
  induction l as [|x l IH]; simpl; [reflexivity|].
  destruct (p x); simpl; [reflexivity|exact IH].
Qed.

Lemma sameEmail_spec (a b : string) :
  sameEmail a b = true <-> JS.toLowerCase a = JS.toLowerCase b.
Proof. unfold sameEmail. apply String.eqb_eq. Qed.

(** [findByEmail] finds a record exactly when some record, active or not,
    holds the email in some letter case. *)
Lemma findByEmail_found (c : EmployeeCollection) (mail : string) :
  isSome (findByEmail c mail) = true <->
  exists e, In e (employees c) /\ sameEmail (email e) mail = true.
Proof. unfold findByEmail. rewrite find_isSome. apply existsb_exists. Qed.

Lemma addEmployee_cases (generatedId : ident) (now : string)
    (arg : employeeArg) (c : EmployeeCollection) :
  let employee := toEmployee generatedId now arg in
  (isSome (findByEmail c (email employee)) = true
   /\ addEmployee generatedId now arg c = Threw duplicateEmail c)
  \/ (isSome (findByEmail c (email employee)) = false
      /\ addEmployee generatedId now arg c
         = Returned employee (afterAdd employee c)).
Proof.
  intros employee. unfold addEmployee. fold employee.
  destruct (findByEmail c (email employee)); [left|right]; split; reflexivity.
Qed.

(** C3, on Ann deactivated: no active record holds the email, and adding a
    record with it throws all the same. *)
Lemma inactive_email_still_blocks_add :
  (forall e, In e (employees annInactive) -> isActive e = false)
  /\ addEmployee (IdStr "lq3x8k2f0b") "2024-05-01T09:00:00.000Z"
       (Plain annAgain) annInactive
     = Threw duplicateEmail annInactive.
Proof.
  split.
  - intros e [<-|[]]. reflexivity.
  - reflexivity.
Qed.

Lemma addEmployee_throws_iff (generatedId : ident) (now : string)
    (arg : employeeArg) (c : EmployeeCollection) :
  addEmployee generatedId now arg c = Threw duplicateEmail c <->
  exists e, In e (employees c)
            /\ JS.toLowerCase (email e)
               = JS.toLowerCase (email (toEmployee generatedId now arg)).
Proof.
  destruct (addEmployee_cases generatedId now arg c) as [[Hf Ha]|[Hf Ha]];
    rewrite Ha.
  - split; [intros _|reflexivity].
    apply findByEmail_found in Hf. destruct Hf as [e [Hin He]].
    exists e. split; [exact Hin|]. apply sameEmail_spec. exact He.
  - split; [discriminate|].
    intros [e [Hin He]].
    assert (Hs : isSome (findByEmail c
                           (email (toEmployee generatedId now arg))) = true).
    { apply findByEmail_found. exists e. split; [exact Hin|].
      apply sameEmail_spec. exact He. }
    congruence.
Qed.

(** C3, as the code has it.  [addEmployee] throws the duplicate-email
    error exactly when some record of the collection, active or not, holds
    the new record's email in some letter case; otherwise it returns the
    record, pushed at the end of the collection. *)
Theorem addEmployee_throws_iff_email_held (generatedId : ident)
    (now : string) (arg : employeeArg) (c : EmployeeCollection) :
  let employee := toEmployee generatedId now arg in
  (addEmployee generatedId now arg c = Threw duplicateEmail c <->
   exists e, In e (employees c)
             /\ JS.toLowerCase (email e) = JS.toLowerCase (email employee))
  /\ (addEmployee generatedId now arg c = Threw duplicateEmail c
      \/ addEmployee generatedId now arg c
         = Returned employee (afterAdd employee c)).
Proof.
  intros employee. split.
  - apply addEmployee_throws_iff.
  - destruct (addEmployee_cases generatedId now arg c) as [[_ Ha]|[_ Ha]];
      [left|right]; exact Ha.
Qed.

(** C5.  When a record of the collection holds the new record's email up
    to letter case, [addEmployee] throws the duplicate-email error and the
    collection is what it was: same records in the same order, same view,
    same page and query state, and no observer was called. *)
Theorem addEmployee_duplicate_leaves_collection (generatedId : ident)
    (now : string) (arg : employeeArg) (c : EmployeeCollection)
    (existing : Employee) :
  In existing (employees c) ->
  JS.toLowerCase (email existing)
  = JS.toLowerCase (email (toEmployee generatedId now arg)) ->
  addEmployee generatedId now arg c = Threw duplicateEmail c
  /\ employees (stateOf (addEmployee generatedId now arg c)) = employees c
  /\ filteredEmployees (stateOf (addEmployee generatedId now arg c))
     = filteredEmployees c
  /\ calls (stateOf (addEmployee generatedId now arg c)) = calls c.
Proof.
  intros Hin He.
  assert (Ha : addEmployee generatedId now arg c = Threw duplicateEmail c).
  { apply addEmployee_throws_iff. exists existing. split; assumption. }
  rewrite Ha. repeat split.
Qed.

(** C5 on Ann's collection: a record with Ann's email in other letter case
    is refused. *)
Lemma addEmployee_duplicate_leaves_collection_witness :
  In ann (employees annAlone)
  /\ JS.toLowerCase (email ann)
     = JS.toLowerCase
         (email (toEmployee (IdStr "lq3x8k2f0b") "2024-05-01T09:00:00.000Z"
                   (Plain annAgain)))
  /\ addEmployee (IdStr "lq3x8k2f0b") "2024-05-01T09:00:00.000Z"
       (Plain annAgain) annAlone
     = Threw duplicateEmail annAlone
  /\ employees
       (stateOf (addEmployee (IdStr "lq3x8k2f0b") "2024-05-01T09:00:00.000Z"
                   (Plain annAgain) annAlone))
     = employees annAlone
  /\ filteredEmployees
       (stateOf (addEmployee (IdStr "lq3x8k2f0b") "2024-05-01T09:00:00.000Z"
                   (Plain annAgain) annAlone))
     = filteredEmployees annAlone
  /\ calls
       (stateOf (addEmployee (IdStr "lq3x8k2f0b") "2024-05-01T09:00:00.000Z"
                   (Plain annAgain) annAlone))
     = calls annAlone.
Proof.
  split; [left; reflexivity|]. split; [reflexivity|].
  apply (addEmployee_duplicate_leaves_collection
           (IdStr "lq3x8k2f0b") "2024-05-01T09:00:00.000Z"
           (Plain annAgain) annAlone ann).
  - left. reflexivity.
  - reflexivity.
Defined.

(** [updateEmployee] throws exactly when the record exists and [data] has
    a non-empty email, other than the record's own character for
    character, that some record holds in some letter case. *)
Lemma updateEmployee_throws_iff (i : ident) (data : Data.t)
    (c : EmployeeCollection) (message : string) (c' : EmployeeCollection) :
  updateEmployee i data c = Threw message c' <->
  message = duplicateEmail /\ c' = c
  /\ exists employee mail,
       findById c i = Some employee
       /\ Data.email data = Some mail
       /\ mail <> "" /\ mail <> email employee
       /\ exists e, In e (employees c)
                    /\ JS.toLowerCase (email e) = JS.toLowerCase mail.
Proof.
  unfold updateEmployee, emailTaken.
  destruct (findById c i) as [employee|].
  - destruct (Data.email data) as [mail|].
    + destruct (JS.nonEmpty mail) eqn:Hn; cbn [andb].
      * destruct (mail =? email employee)%string eqn:Hm; cbn [andb negb].
        -- split; [discriminate|].
           intros (_ & _ & e' & m' & He' & Hm' & _ & Hneq & _).
           injection He' as <-. injection Hm' as <-.
           apply String.eqb_eq in Hm. contradiction.
        -- destruct (isSome (findByEmail c mail)) eqn:Hf.
           ++ split.
              ** intros H. injection H as <- <-.
                 split; [reflexivity|]. split; [reflexivity|].
                 exists employee, mail. split; [reflexivity|].
                 split; [reflexivity|].
                 split; [apply nonEmpty_true; exact Hn|].
                 split; [apply String.eqb_neq; exact Hm|].
                 apply findByEmail_found in Hf. destruct Hf as [e [Hin He]].
                 exists e. split; [exact Hin|]. apply sameEmail_spec. exact He.
              ** intros (-> & -> & _). reflexivity.
           ++ split; [discriminate|].
              intros (_ & _ & e' & m' & He' & Hm' & _ & _ & e & Hin & He).
              injection Hm' as <-.
              assert (Hs : isSome (findByEmail c mail) = true).
              { apply findByEmail_found. exists e. split; [exact Hin|].
                apply sameEmail_spec. exact He. }
              congruence.
      * split; [discriminate|].
        intros (_ & _ & e' & m' & _ & Hm' & Hne & _).
        injection Hm' as <-. apply nonEmpty_true in Hne. congruence.
    + split; [discriminate|].
      intros (_ & _ & e' & m' & _ & Hm' & _). discriminate Hm'.
  - split; [discriminate|].
    intros (_ & _ & e' & m' & He' & _). discriminate He'.
Qed.

(** C4, at the input where it fails.  Ann is the only record; an update of
    Ann that writes her own email in capitals throws the duplicate-email
    error, since [findByEmail] finds Ann herself. *)
Theorem updateEmployee_own_email_other_case_throws :
  employees annAlone = [ann]
  /\ JS.toLowerCase "ANN@EXAMPLE.COM" = JS.toLowerCase (email ann)
  /\ findByEmail annAlone "ANN@EXAMPLE.COM" = Some ann
  /\ updateEmployee (IdNum 1) upperEmail annAlone
     = Threw duplicateEmail annAlone.
Proof. repeat split. Qed.

(** ** Pages *)

Lemma ceilDiv_nonneg (n p : Z) : 0 <= n -> 0 < p -> 0 <= ceilDiv n p.
Proof.
  intros Hn Hp. unfold ceilDiv.
  assert ((- n) / p <= 0); [|lia].
  apply Z.div_le_upper_bound; lia.
Qed.

Lemma ceilDiv_mono (n m p : Z) : 0 < p -> n <= m -> ceilDiv n p <= ceilDiv m p.
Proof.
  intros Hp Hnm. unfold ceilDiv.
  assert ((- m) / p <= (- n) / p); [|lia].
  apply Z.div_le_mono; lia.
Qed.

Lemma getTotalPages_nonneg (c : EmployeeCollection) :
  0 < pageSize c -> 0 <= getTotalPages c.
Proof. intros Hp. apply ceilDiv_nonneg; [lia|exact Hp]. Qed.

(** [setCurrentPage] clamps the page into the valid range. *)
Lemma setCurrentPage_in_range (page : Z) (c : EmployeeCollection) :
  0 < pageSize c -> pageInRange (setCurrentPage page c).
Proof.
  intros Hp. pose proof (getTotalPages_nonneg c Hp) as Ht.
  unfold pageInRange.
  change (getTotalPages (setCurrentPage page c)) with (getTotalPages c).
  change (currentPage (setCurrentPage page c))
    with (Z.max 1 (Z.min page (getTotalPages c))).
  lia.
Qed.

(** The operations that go back to the first page leave it in range. *)
Lemma first_page_in_range (c : EmployeeCollection) :
  currentPage c = 1 -> pageInRange c.
Proof. unfold pageInRange. intros ->. lia. Qed.

Lemma setPageSize_in_range (size : Z) (c : EmployeeCollection) :
  pageInRange (setPageSize size c).
Proof. apply first_page_in_range. reflexivity. Qed.

Lemma setSearchTerm_in_range (term : string) (c : EmployeeCollection) :
  pageInRange (setSearchTerm term c).
Proof. apply first_page_in_range. reflexivity. Qed.

Lemma setDepartmentFilters_in_range (departments : option (list string))
    (c : EmployeeCollection) :
  pageInRange (setDepartmentFilters departments c).
Proof. apply first_page_in_range. reflexivity. Qed.

(** The view does not shrink when a record is pushed. *)
Lemma filteredView_push (employee : Employee) (c : EmployeeCollection) :
  (List.length (filteredView c)
   <= List.length (filteredView (withEmployees (employees c ++ [employee]) c)))%nat.
Proof.
  rewrite !filteredView_sorted_filter. unfold Helpers.sortByProperty.
  rewrite !sort_length.
  cbn [employees searchTerm departmentFilters withEmployees].
  rewrite filter_app, length_app. lia.
Qed.

(** [addEmployee] keeps the page in range: the view only grows. *)
Lemma addEmployee_keeps_page_in_range (generatedId : ident) (now : string)
    (arg : employeeArg) (c : EmployeeCollection) :
  viewCurrent c -> 0 < pageSize c -> pageInRange c ->
  pageInRange (stateOf (addEmployee generatedId now arg c)).
Proof.
  intros Hv Hs Hp.
  destruct (addEmployee_cases generatedId now arg c) as [[_ Ha]|[_ Ha]];
    rewrite Ha; [exact Hp|].
  cbn [stateOf]. unfold pageInRange in *.
  set (employee := toEmployee generatedId now arg).
  assert (Ht : getTotalPages c <= getTotalPages (afterAdd employee c)).
  { unfold getTotalPages. apply ceilDiv_mono; [exact Hs|].
    rewrite Hv. apply inj_le. apply filteredView_push. }
  change (currentPage (afterAdd employee c)) with (currentPage c). lia.
Qed.

Ltac page_out_of_range p t :=
  unfold pageInRange;
  match goal with
  | |- ~ (1 <= currentPage ?c <= Z.max 1 (getTotalPages ?c)) =>
      let Hp := fresh "Hp" in
      let Ht := fresh "Ht" in
      assert (Hp : currentPage c = p) by (vm_compute; reflexivity);
      assert (Ht : getTotalPages c = t) by (vm_compute; reflexivity);
      rewrite Hp, Ht; lia
  end.

(** C1, at the inputs where it fails.  With two records, one per page and
    the second page shown, the page is in range; removing the second
    record, deactivating it, updating it out of the view, or loading a
    single record leaves [currentPage] at 2 while only one page remains. *)
Theorem page_not_clamped_when_view_shrinks :
  pageInRange twoPages
  /\ ~ pageInRange (snd (removeEmployee (IdNum 2) twoPages))
  /\ ~ pageInRange (snd (deactivateEmployee (IdNum 2) twoPages))
  /\ ~ pageInRange (stateOf (updateEmployee (IdNum 2) inactiveFlag twoPages))
  /\ ~ pageInRange (loadEmployees sampleEnv [Plain annData] twoPages).
Proof.
  split; [|repeat split].
  - unfold pageInRange.
    assert (Hp : currentPage twoPages = 2) by (vm_compute; reflexivity).
    assert (Ht : getTotalPages twoPages = 2) by (vm_compute; reflexivity).
    rewrite Hp, Ht. lia.
  - page_out_of_range 2 1.
  - page_out_of_range 2 1.
  - page_out_of_range 2 1.
  - page_out_of_range 2 1.
Qed.

(** The figures of the pagination example, first page. *)
Lemma paginationInfo_47_25_first (c : EmployeeCollection) :
  List.length (filteredEmployees c) = 47%nat ->
  pageSize c = 25 ->
  currentPage c = 1 ->
  getPaginationInfo c =
    {| PaginationInfo.currentPage := 1; PaginationInfo.totalPages := 2;
       PaginationInfo.totalItems := 47; PaginationInfo.pageSize := 25;
       PaginationInfo.startIndex := 1; PaginationInfo.endIndex := 25;
       PaginationInfo.hasNext := true; PaginationInfo.hasPrevious := false |}.
Proof.
  intros Hl Hs Hp. unfold getPaginationInfo, getTotalPages.
  rewrite Hl, Hs, Hp. reflexivity.
Qed.

(** The figures of the pagination example, second page. *)
Lemma paginationInfo_47_25_second (c : EmployeeCollection) :
  List.length (filteredEmployees c) = 47%nat ->
  pageSize c = 25 ->
  currentPage c = 2 ->
  getPaginationInfo c =
    {| PaginationInfo.currentPage := 2; PaginationInfo.totalPages := 2;
       PaginationInfo.totalItems := 47; PaginationInfo.pageSize := 25;
       PaginationInfo.startIndex := 26; PaginationInfo.endIndex := 47;
       PaginationInfo.hasNext := false; PaginationInfo.hasPrevious := true |}.
Proof.
  intros Hl Hs Hp. unfold getPaginationInfo, getTotalPages.
  rewrite Hl, Hs, Hp. reflexivity.
Qed.

(** With no item in the view the indices are zero and there is no next
    page; there is no previous page when the page is the first one. *)
Lemma paginationInfo_empty (c : EmployeeCollection) :
  filteredEmployees c = [] ->
  0 < pageSize c ->
  1 <= currentPage c ->
  PaginationInfo.startIndex (getPaginationInfo c) = 0
  /\ PaginationInfo.endIndex (getPaginationInfo c) = 0
  /\ PaginationInfo.hasNext (getPaginationInfo c) = false
  /\ (currentPage c = 1 ->
      PaginationInfo.hasPrevious (getPaginationInfo c) = false).
Proof.
  intros He Hs Hp.
  assert (Ht : getTotalPages c = 0).
  { unfold getTotalPages, ceilDiv. rewrite He.
    change (- Z.of_nat (List.length (@nil Employee))) with 0.
    rewrite Z.div_0_l by lia. reflexivity. }
  unfold getPaginationInfo. rewrite Ht, He. cbn [PaginationInfo.startIndex
    PaginationInfo.endIndex PaginationInfo.hasNext PaginationInfo.hasPrevious
    List.length Z.of_nat Z.ltb Z.compare].
  repeat split.
  - apply Z.ltb_ge. lia.
  - intros ->. reflexivity.
Qed.

(** C8, at the input where it fails.  After both records of [twoPages]
    were removed the view is empty and the indices are zero, but the page
    is still 2, and [hasPrevious] is [true]. *)
Theorem paginationInfo_empty_view_keeps_previous :
  getPaginationInfo emptied =
    {| PaginationInfo.currentPage := 2; PaginationInfo.totalPages := 0;
       PaginationInfo.totalItems := 0; PaginationInfo.pageSize := 1;
       PaginationInfo.startIndex := 0; PaginationInfo.endIndex := 0;
       PaginationInfo.hasNext := false; PaginationInfo.hasPrevious := true |}.
Proof. vm_compute. reflexivity. Qed.

(** ** The fallback of the remote source *)

(** C9.  When [fetchUsers] rejects, whatever the error, [fetchEmployees]
    fulfils with the mock employees: the five records John Doe, Jane
    Smith, Mike Johnson, Sarah Wilson and David Brown, all active, and
    [validate] finds each of them valid with no error. *)
Theorem fetchEmployees_falls_back_to_mock (env : nat -> EmployeeAPI.Draw)
    (message : string) :
  EmployeeAPI.fetchEmployees env (EmployeeAPI.Rejected message)
  = EmployeeAPI.Fulfilled (EmployeeAPI.getMockEmployees env)
  /\ map (fun e => (id e, name e, email e, phone e))
         (EmployeeAPI.getMockEmployees env)
     = [ (IdNum 1, "John Doe", "john.doe@company.com", "(555) 123-4567");
         (IdNum 2, "Jane Smith", "jane.smith@company.com", "(555) 234-5678");
         (IdNum 3, "Mike Johnson", "mike.johnson@company.com", "(555) 345-6789");
         (IdNum 4, "Sarah Wilson", "sarah.wilson@company.com", "(555) 456-7890");
         (IdNum 5, "David Brown", "david.brown@company.com", "(555) 567-8901") ]
  /\ map (fun e => (department e, position e, salary e, hireDate e, isActive e))
         (EmployeeAPI.getMockEmployees env)
     = [ ("Engineering", "Senior Software Engineer", Some 95000,
          "2021-03-15T00:00:00.000Z", true);
         ("Marketing", "Marketing Manager", Some 75000,
          "2020-08-22T00:00:00.000Z", true);
         ("Sales", "Sales Representative", Some 60000,
          "2022-01-10T00:00:00.000Z", true);
         ("HR", "HR Manager", Some 70000, "2019-11-05T00:00:00.000Z", true);
         ("Finance", "Financial Analyst", Some 65000,
          "2021-09-18T00:00:00.000Z", true) ]
  /\ Forall (fun e => validate e = {| isValid := true; errors := [] |})
            (EmployeeAPI.getMockEmployees env).
Proof.
  split; [reflexivity|]. split; [reflexivity|]. split; [reflexivity|].
  unfold EmployeeAPI.getMockEmployees, EmployeeAPI.mockData.
  cbn [List.length seq combine map fst snd].
  repeat constructor.
Qed.

(** * Further properties *)

(** ** States of the collection *)




(** ** Pages of the view *)

Lemma arraySlice_chunk {A : Type} (l : list A) (from size : Z) :
  0 <= from -> 0 < size ->
  arraySlice l from (from + size)
  = firstn (Z.to_nat size) (skipn (Z.to_nat from) l).
Proof.
  intros Hf Hs. unfold arraySlice.
  destruct (from <? 0) eqn:E1; [apply Z.ltb_lt in E1; lia|].
  destruct (from + size <? 0) eqn:E2; [apply Z.ltb_lt in E2; lia|].
  clear E1 E2.
  destruct (Z_lt_le_dec from (Z.of_nat (List.length l))) as [Hlt|Hge].
  - rewrite (Z.min_l from) by lia.
    destruct (Z_le_gt_dec (from + size) (Z.of_nat (List.length l))) as [Hle|Hgt].
    + rewrite Z.min_l by lia. f_equal. lia.
    + rewrite Z.min_r by lia.
      rewrite !firstn_all2; [reflexivity| |]; rewrite length_skipn; lia.
  - rewrite (Z.min_r from) by lia. rewrite Z.min_r by lia.
    rewrite Z.sub_diag. cbn [Z.to_nat firstn].
    rewrite (skipn_all2 l) by lia. rewrite firstn_nil. reflexivity.
Qed.

Lemma pageOf_chunk (c : EmployeeCollection) (p : Z) :
  1 <= p -> 0 < pageSize c ->
  pageOf c p
  = firstn (Z.to_nat (pageSize c))
      (skipn (Z.to_nat ((p - 1) * pageSize c)) (filteredEmployees c)).
Proof.
  intros Hp Hs. unfold pageOf, getCurrentPageEmployees.
  cbn [currentPage pageSize filteredEmployees withCurrentPage].
  apply arraySlice_chunk; nia.
Qed.

Lemma chunks_concat {A : Type} (size n : nat) (l : list A) :
  (List.length l <= n * size)%nat ->
  List.concat (map (fun k => firstn size (skipn (k * size) l)) (seq 0 n)) = l.
Proof.
  revert l. induction n as [|n IH]; intros l Hl.
  - destruct l; [reflexivity|simpl in Hl; lia].
  - cbn [seq map List.concat]. rewrite <- seq_shift, map_map.
    cbn [Nat.mul Nat.add skipn].
    transitivity (firstn size l ++ skipn size l)%list;
      [|apply firstn_skipn].
    f_equal.
    transitivity
      (List.concat
         (map (fun k => firstn size (skipn (k * size) (skipn size l)))
              (seq 0 n))).
    + f_equal. apply map_ext. intros k.
      rewrite skipn_skipn. f_equal. f_equal. lia.
    + apply IH. rewrite length_skipn. lia.
Qed.

Lemma ceilDiv_covers (n p : Z) : 0 < p -> n <= ceilDiv n p * p.
Proof.
  intros Hp. unfold ceilDiv.
  pose proof (Z.mul_div_le (- n) p Hp). nia.
Qed.

Lemma ceilDiv_le_iff (n p q : Z) : 0 < p -> (ceilDiv n p <= q <-> n <= q * p).
Proof.
  intros Hp. unfold ceilDiv.
  pose proof (Z.div_mod (- n) p ltac:(lia)) as Hd.
  pose proof (Z.mod_pos_bound (- n) p Hp) as Hm.
  split; intros H; nia.
Qed.

(** X2.  With a positive page size, pages 1 to [getTotalPages()] put end
    to end are the view: every record of the view is on exactly one page,
    and in the order of the view. *)
Theorem pages_partition_view (c : EmployeeCollection) :
  0 < pageSize c ->
  List.concat (map (pageOf c) (fromTo 1 (getTotalPages c))) = filteredEmployees c.
Proof.
  intros Hs. unfold fromTo. rewrite map_map.
  replace (getTotalPages c - 1 + 1) with (getTotalPages c) by lia.
  transitivity
    (List.concat
       (map (fun k => firstn (Z.to_nat (pageSize c))
                        (skipn (k * Z.to_nat (pageSize c))
                               (filteredEmployees c)))
            (seq 0 (Z.to_nat (getTotalPages c))))).
  - f_equal. apply map_ext. intros k. rewrite pageOf_chunk by lia.
    f_equal. f_equal.
    replace (1 + Z.of_nat k - 1) with (Z.of_nat k) by lia.
    rewrite Z2Nat.inj_mul by lia. rewrite Nat2Z.id. reflexivity.
  - apply chunks_concat.
    pose proof (getTotalPages_nonneg c Hs) as Ht.
    pose proof (ceilDiv_covers (Z.of_nat (List.length (filteredEmployees c)))
                  (pageSize c) Hs) as Hc.
    fold (getTotalPages c) in Hc.
    apply Nat2Z.inj_le. rewrite Nat2Z.inj_mul, !Z2Nat.id by lia. exact Hc.
Qed.

(** X2 on the two records shown one per page. *)
Lemma pages_partition_view_witness :
  0 < pageSize twoPages
  /\ List.concat (map (pageOf twoPages) (fromTo 1 (getTotalPages twoPages)))
     = filteredEmployees twoPages.
Proof.
  split; [reflexivity|].
  apply (pages_partition_view twoPages). reflexivity.
Defined.

(** X3.  With a positive page size, a page holds at most [pageSize]
    records, and the page [currentPage] shows is empty exactly when
    [currentPage] is beyond [getTotalPages()]. *)
Theorem page_size_and_emptiness (c : EmployeeCollection) :
  0 < pageSize c -> 1 <= currentPage c ->
  Z.of_nat (List.length (getCurrentPageEmployees c)) <= pageSize c
  /\ (getCurrentPageEmployees c = [] <-> getTotalPages c < currentPage c).
Proof.
  intros Hs Hp.
  assert (He : getCurrentPageEmployees c = pageOf c (currentPage c)).
  { destruct c; reflexivity. }
  rewrite He, pageOf_chunk by assumption.
  set (k := Z.to_nat ((currentPage c - 1) * pageSize c)).
  set (l := filteredEmployees c).
  split.
  - rewrite length_firstn. lia.
  - assert (Hk : getTotalPages c < currentPage c
                 <-> (List.length l <= k)%nat).
    { unfold getTotalPages. fold l.
      pose proof (ceilDiv_le_iff (Z.of_nat (List.length l)) (pageSize c)
                    (currentPage c - 1) Hs) as Hiff.
      unfold k. split; intros H.
      - apply Nat2Z.inj_le. rewrite Z2Nat.id by nia. apply Hiff. lia.
      - apply Nat2Z.inj_le in H. rewrite Z2Nat.id in H by nia.
        apply Hiff in H. lia. }
    rewrite Hk. split; intros H.
    + apply (f_equal (@List.length _)) in H.
      rewrite length_firstn, length_skipn in H. cbn in H. lia.
    + rewrite skipn_all2 by exact H. apply firstn_nil.
Qed.

(** X3 on the two records shown one per page. *)
Lemma page_size_and_emptiness_witness :
  0 < pageSize twoPages /\ 1 <= currentPage twoPages
  /\ Z.of_nat (List.length (getCurrentPageEmployees twoPages)) <= pageSize twoPages
  /\ (getCurrentPageEmployees twoPages = []
      <-> getTotalPages twoPages < currentPage twoPages).
Proof.
  split; [reflexivity|]. split; [cbn; lia|].
  apply (page_size_and_emptiness twoPages); [reflexivity|cbn; lia].
Defined.

(** X4.  From a page in range and with a positive page size, [nextPage]
    and [previousPage] stay in range: [nextPage] goes one page up and
    stops at the last page, [previousPage] goes one page down and stops at
    page 1. *)
Theorem next_and_previous_stay_in_range (c : EmployeeCollection) :
  0 < pageSize c -> pageInRange c ->
  pageInRange (nextPage c) /\ pageInRange (previousPage c)
  /\ currentPage (nextPage c)
     = Z.min (currentPage c + 1) (Z.max 1 (getTotalPages c))
  /\ currentPage (previousPage c) = Z.max 1 (currentPage c - 1).
Proof.
  intros Hs Hr. pose proof Hr as [H1 H2].
  assert (Hn : currentPage (nextPage c)
               = Z.min (currentPage c + 1) (Z.max 1 (getTotalPages c))).
  { unfold nextPage. destruct (currentPage c <? getTotalPages c) eqn:E.
    - apply Z.ltb_lt in E.
      change (Z.max 1 (Z.min (currentPage c + 1) (getTotalPages c))
              = Z.min (currentPage c + 1) (Z.max 1 (getTotalPages c))). lia.
    - apply Z.ltb_ge in E. lia. }
  assert (Hq : currentPage (previousPage c) = Z.max 1 (currentPage c - 1)).
  { unfold previousPage. destruct (1 <? currentPage c) eqn:E.
    - apply Z.ltb_lt in E.
      change (Z.max 1 (Z.min (currentPage c - 1) (getTotalPages c))
              = Z.max 1 (currentPage c - 1)). lia.
    - apply Z.ltb_ge in E. lia. }
  assert (Tn : getTotalPages (nextPage c) = getTotalPages c).
  { unfold nextPage. destruct (currentPage c <? getTotalPages c); reflexivity. }
  assert (Tq : getTotalPages (previousPage c) = getTotalPages c).
  { unfold previousPage. destruct (1 <? currentPage c); reflexivity. }
  unfold pageInRange. rewrite Tn, Tq, Hn, Hq. lia.
Qed.

(** X4 on the two records shown one per page. *)
Lemma next_and_previous_stay_in_range_witness :
  0 < pageSize twoPages /\ pageInRange twoPages
  /\ pageInRange (nextPage twoPages) /\ pageInRange (previousPage twoPages)
  /\ currentPage (nextPage twoPages)
     = Z.min (currentPage twoPages + 1) (Z.max 1 (getTotalPages twoPages))
  /\ currentPage (previousPage twoPages) = Z.max 1 (currentPage twoPages - 1).
Proof.
  assert (Hr : pageInRange twoPages).
  { unfold pageInRange.
    change (currentPage twoPages) with 2.
    change (getTotalPages twoPages) with 2. lia. }
  split; [reflexivity|]. split; [exact Hr|].
  apply (next_and_previous_stay_in_range twoPages); [reflexivity|exact Hr].
Defined.

(** ** Unique emails *)

Lemma changeFirst_map_same {A B : Type} (p : A -> bool) (f : A -> A)
    (key : A -> B) (l : list A) :
  (forall x, find p l = Some x -> key (f x) = key x) ->
  map key (changeFirst p f l) = map key l.
Proof.
  induction l as [|y l IH]; intros H; simpl; [reflexivity|].
  simpl in H. destruct (p y).
  - simpl. rewrite (H y eq_refl). reflexivity.
  - simpl. rewrite IH by exact H. reflexivity.
Qed.



Lemma email_after_update (e : Employee) (data : Data.t) :
  email (update e data) = pick (Data.email data) (email e).
Proof. rewrite update_closed_form. reflexivity. Qed.

(** X5.  [addEmployee] keeps emails unique: when no two records of the
    collection hold the same email, letter case apart, the same is true
    after the call, whether it returned or threw. *)
Theorem addEmployee_keeps_emails_unique (generatedId : ident) (now : string)
    (arg : employeeArg) (c : EmployeeCollection) :
  uniqueEmails c -> uniqueEmails (stateOf (addEmployee generatedId now arg c)).
Proof.
  intros Hu.
  destruct (addEmployee_cases generatedId now arg c) as [[_ Ha]|[Hf Ha]];
    rewrite Ha; [exact Hu|].
  cbn [stateOf]. unfold uniqueEmails in *.
  change (employees (afterAdd (toEmployee generatedId now arg) c))
    with (employees c ++ [toEmployee generatedId now arg])%list.
  rewrite map_app. cbn [map].
  eapply Permutation_NoDup; [apply Permutation_cons_append|].
  constructor; [|exact Hu].
  intros Hin. apply in_map_iff in Hin. destruct Hin as [e [He Hin]].
  assert (Hs : isSome (findByEmail c
                         (email (toEmployee generatedId now arg))) = true).
  { apply findByEmail_found. exists e. split; [exact Hin|].
    apply sameEmail_spec. exact He. }
  congruence.
Qed.

(** X5 on Ann's collection. *)
Lemma addEmployee_keeps_emails_unique_witness :
  uniqueEmails annAlone
  /\ uniqueEmails
       (stateOf (addEmployee (IdStr "lq3x8k2f0b") "2024-05-01T09:00:00.000Z"
                   (Plain benData) annAlone)).
Proof.
  assert (Hu : uniqueEmails annAlone).
  { unfold uniqueEmails. cbn. constructor; [intros []|constructor]. }
  split; [exact Hu|].
  apply (addEmployee_keeps_emails_unique _ _ _ annAlone). exact Hu.
Defined.



(** ** Removing and deactivating *)

Lemma find_existsb {A : Type} (p : A -> bool) (l : list A) :
  existsb p l = isSome (find p l).
Proof. symmetry. apply find_isSome. Qed.

Lemma removeFirst_found {A : Type} (p : A -> bool) (l : list A) (x : A) :
  find p l = Some x ->
  Permutation l (x :: removeFirst p l)
  /\ exists front, l = (front ++ x :: skipn (S (List.length front)) l)%list
                   /\ removeFirst p l
                      = (front ++ skipn (S (List.length front)) l)%list
                   /\ forallb (fun y => negb (p y)) front = true.
Proof.
  induction l as [|y l IH]; simpl; [discriminate|].
  destruct (p y) eqn:Hy.
  - intros H. injection H as ->. split; [apply Permutation_refl|].
    exists []. repeat split.
  - intros H. destruct (IH H) as [Hp [front [Hl [Hr Hf]]]]. split.
    + eapply Permutation_trans; [apply perm_skip; exact Hp|apply perm_swap].
    + exists (y :: front). cbn [List.length skipn app forallb].
      rewrite Hy. cbn [negb andb]. repeat split.
      * f_equal. exact Hl.
      * f_equal. exact Hr.
      * exact Hf.
Qed.

Lemma removeEmployee_found (i : ident) (c : EmployeeCollection)
    (e : Employee) :
  findById c i = Some e ->
  fst (removeEmployee i c) = true /\ viewCurrent (snd (removeEmployee i c)).
Proof.
  unfold removeEmployee, findById. rewrite find_existsb.
  intros ->. cbn [isSome fst snd]. split; reflexivity.
Qed.

(** X7.  [removeEmployee] on an identifier no record has returns [false]
    and leaves the collection as it is, observers not called.  Otherwise
    it returns [true], takes out the first record with the identifier and
    no other, recomputes the view, calls every observer once and keeps the
    page. *)
Theorem removeEmployee_effect (i : ident) (c : EmployeeCollection) :
  match findById c i with
  | None => removeEmployee i c = (false, c)
  | Some e =>
      let c' := snd (removeEmployee i c) in
      fst (removeEmployee i c) = true
      /\ Permutation (employees c) (e :: employees c')
      /\ (exists front,
             employees c
             = (front ++ e :: skipn (S (List.length front)) (employees c))%list
             /\ employees c'
                = (front ++ skipn (S (List.length front)) (employees c))%list
             /\ forallb (fun y => negb (sameId (id y) i)) front = true)
      /\ viewCurrent c'
      /\ currentPage c' = currentPage c
      /\ calls c' = (calls c ++ observers c)%list
  end.
Proof.
  unfold removeEmployee, findById. rewrite find_existsb.
  destruct (find (fun emp => sameId (id emp) i) (employees c)) as [e|] eqn:Hf;
    cbn [isSome]; [|reflexivity].
  destruct (removeFirst_found _ _ _ Hf) as [Hp Hfront].
  cbn [fst snd]. split; [reflexivity|]. split; [exact Hp|].
  split; [exact Hfront|]. repeat split.
Qed.

Lemma changeFirst_length {A : Type} (p : A -> bool) (f : A -> A) (l : list A) :
  List.length (changeFirst p f l) = List.length l.
Proof.
  induction l as [|y l IH]; simpl; [reflexivity|].
  destruct (p y); simpl; [reflexivity|rewrite IH; reflexivity].
Qed.

Lemma changeFirst_find {A : Type} (p : A -> bool) (f : A -> A) (l : list A)
    (x : A) :
  (forall y, p (f y) = p y) ->
  find p l = Some x -> find p (changeFirst p f l) = Some (f x).
Proof.
  intros Hp. induction l as [|y l IH]; simpl; [discriminate|].
  destruct (p y) eqn:Hy.
  - intros H. injection H as ->. simpl. rewrite Hp, Hy. reflexivity.
  - intros H. simpl. rewrite Hy. apply IH. exact H.
Qed.

Lemma changeFirst_active (p : Employee -> bool) (l : list Employee)
    (x : Employee) :
  find p l = Some x ->
  (List.length (filter isActive (changeFirst p (setIsActive false) l))
   + (if isActive x then 1 else 0)
   = List.length (filter isActive l))%nat.
Proof.
  induction l as [|y l IH]; simpl; [discriminate|].
  destruct (p y) eqn:Hy.
  - intros H. injection H as ->. simpl.
    destruct (isActive x); simpl; lia.
  - intros H. simpl. destruct (isActive y); simpl; rewrite <- (IH H); lia.
Qed.

(** X8.  [deactivateEmployee] on an identifier no record has returns
    [false] and leaves the collection as it is.  Otherwise it returns
    [true] and keeps every record in place: the first record with the
    identifier is found again, now inactive, the identifiers are in the
    same order, the number of active records drops by one if the record
    was active, and the view is recomputed. *)
Theorem deactivateEmployee_effect (i : ident) (c : EmployeeCollection) :
  match findById c i with
  | None => deactivateEmployee i c = (false, c)
  | Some e =>
      let c' := snd (deactivateEmployee i c) in
      fst (deactivateEmployee i c) = true
      /\ findById c' i = Some (setIsActive false e)
      /\ map id (employees c') = map id (employees c)
      /\ (activeCount c' + (if isActive e then 1 else 0) = activeCount c)%nat
      /\ viewCurrent c'
      /\ calls c' = (calls c ++ observers c)%list
  end.
Proof.
  unfold deactivateEmployee.
  destruct (findById c i) as [e|] eqn:Hf; [|reflexivity].
  cbn [fst snd]. unfold findById in *. split; [reflexivity|]. split.
  - apply (changeFirst_find (fun emp => sameId (id emp) i)); [|exact Hf].
    intros y. reflexivity.
  - split.
    + apply (changeFirst_map_same (fun emp => sameId (id emp) i)).
      intros x _. reflexivity.
    + split; [|repeat split].
      apply (changeFirst_active (fun emp => sameId (id emp) i)). exact Hf.
Qed.

(** ** Departments and filters *)

Lemma dedupe_In (seen l : list string) (x : string) :
  In x (dedupe seen l) <-> In x l /\ ~ In x seen.
Proof.
  revert seen. induction l as [|y l IH]; intros seen; simpl; [tauto|].
  destruct (existsb (String.eqb y) seen) eqn:E.
  - rewrite IH. apply existsb_exists in E. destruct E as [z [Hz Hyz]].
    apply String.eqb_eq in Hyz. subst z. split.
    + intros [H1 H2]. tauto.
    + intros [[H|H] H2]; [subst; contradiction|tauto].
  - assert (Hy : ~ In y seen).
    { intros Hin. assert (existsb (String.eqb y) seen = true); [|congruence].
      apply existsb_exists. exists y. split; [exact Hin|apply String.eqb_refl]. }
    simpl. rewrite IH. simpl. split.
    + intros [H|[H1 H2]]; [subst; tauto|tauto].
    + intros [[H|H] H2]; [tauto|].
      destruct (string_dec y x) as [Heq|Hneq]; [tauto|]. right. tauto.
Qed.

Lemma dedupe_NoDup (seen l : list string) : NoDup (dedupe seen l).
Proof.
  revert seen. induction l as [|y l IH]; intros seen; simpl; [constructor|].
  destruct (existsb (String.eqb y) seen); [apply IH|].
  constructor; [|apply IH].
  rewrite dedupe_In. simpl. tauto.
Qed.

Lemma string_leb_trans (a b c : string) :
  String.leb a b = true -> String.leb b c = true -> String.leb a c = true.
Proof.
  unfold String.leb. revert b c.
  induction a as [|x a IH]; intros [|y b] [|z c]; simpl;
    try congruence; try reflexivity.
  unfold Ascii.compare.
  destruct (N.compare_spec (N_of_ascii x) (N_of_ascii y)) as [Hxy|Hxy|Hxy];
    destruct (N.compare_spec (N_of_ascii y) (N_of_ascii z)) as [Hyz|Hyz|Hyz];
    destruct (N.compare_spec (N_of_ascii x) (N_of_ascii z)) as [Hxz|Hxz|Hxz];
    try congruence; try reflexivity; try lia.
  apply IH.
Qed.

Lemma defaultCompare_before (a b : string) :
  before defaultCompare a b <-> String.leb a b = true.
Proof.
  unfold before, defaultCompare, String.leb.
  destruct (String.compare a b); split; intros H; try lia; congruence.
Qed.

Lemma sorted_distinct_strict (l : list string) :
  StronglySorted (fun a b => String.leb a b = true) l -> NoDup l ->
  StronglySorted (fun a b => String.ltb a b = true) l.
Proof.
  induction 1 as [|x l Hs IH Hall]; intros Hn; constructor;
    inversion Hn as [|? ? Hx Hn']; subst.
  - apply IH. exact Hn'.
  - rewrite Forall_forall in *. intros y Hy. specialize (Hall y Hy).
    unfold String.leb in Hall. unfold String.ltb.
    destruct (String.compare x y) eqn:E; try reflexivity; try discriminate.
    apply String.compare_eq_iff in E. subst. contradiction.
Qed.

(** X9.  [getUniqueDepartments] lists, in strictly increasing order of
    code units and so without repetition, exactly the departments of the
    active records that are neither empty nor blank. *)
Theorem getUniqueDepartments_sorted_exact (c : EmployeeCollection) :
  StronglySorted (fun a b => String.ltb a b = true) (getUniqueDepartments c)
  /\ forall d,
      In d (getUniqueDepartments c) <->
      notBlank d = true
      /\ exists e, In e (employees c) /\ isActive e = true /\ department e = d.
Proof.
  unfold getUniqueDepartments. split.
  - apply sorted_distinct_strict.
    + assert (H : StronglySorted (before defaultCompare)
                    (JS.sort defaultCompare
                       (dedupe []
                          (filter notBlank
                             (map department (filter isActive (employees c))))))).
      { apply sort_sorted.
        - intros x y. rewrite !defaultCompare_before. apply String.leb_total.
        - intros x y z. rewrite !defaultCompare_before. apply string_leb_trans. }
      rewrite <- (map_id (JS.sort _ _)).
      apply (StronglySorted_map (fun x => x) (before defaultCompare)); [|exact H].
      intros x y. apply defaultCompare_before.
    + eapply Permutation_NoDup;
        [apply Permutation_sym, sort_perm|apply dedupe_NoDup].
  - intros d. rewrite sort_In, dedupe_In, filter_In, in_map_iff.
    split.
    + intros [[[e [He Hin]] Hb] _]. apply filter_In in Hin.
      split; [exact Hb|]. exists e. tauto.
    + intros [Hb [e [Hin [Ha Hd]]]]. split; [|intros []].
      split; [|exact Hb]. exists e. split; [exact Hd|].
      apply filter_In. tauto.
Qed.



(** ** The sort, again *)

Section Stability.
Context {A : Type} (cmp : A -> A -> Z) (p : A -> bool).
Hypothesis tied : forall a b, p a = true -> p b = true -> cmp a b <= 0.


End Stability.





Lemma string_ltb_false (s t : string) :
  String.ltb t s = false <-> String.leb s t = true.
Proof.
  unfold String.ltb, String.leb. rewrite (String.compare_antisym s t).
  destruct (String.compare t s); simpl; split; congruence.
Qed.

Lemma string_ltb_asym (a b : string) :
  String.ltb a b = true -> String.ltb b a = true -> False.
Proof.
  unfold String.ltb. rewrite (String.compare_antisym a b).
  destruct (String.compare b a); simpl; congruence.
Qed.

Lemma compareValues_text (direction : string) (s t : string) :
  Helpers.compareValues direction (JS.Str s) (JS.Str t) <= 0
  <-> textOrder direction s t.
Proof.
  unfold Helpers.compareValues, textOrder. cbn.
  set (a := JS.toLowerCase s). set (b := JS.toLowerCase t).
  destruct (direction =? "asc")%string; rewrite <- string_ltb_false.
  - destruct (String.ltb a b) eqn:E1; destruct (String.ltb b a) eqn:E2;
      split; intros H; try lia; try congruence.
    destruct (string_ltb_asym a b E1 E2).
  - destruct (String.ltb b a) eqn:E1; destruct (String.ltb a b) eqn:E2;
      split; intros H; try lia; try congruence.
    destruct (string_ltb_asym a b E2 E1).
Qed.

Lemma compareValues_numeric (direction : string) (a b : JS.value) :
  isNumeric a = true -> isNumeric b = true ->
  (Helpers.compareValues direction a b <= 0
   <-> numberOrder direction (numberOf a) (numberOf b)).
Proof.
  unfold Helpers.compareValues, numberOrder, numberOf.
  destruct a as [| |x|x|s], b as [| |y|y|t]; cbn; try discriminate;
    intros _ _; destruct (direction =? "asc")%string; cbn;
    try (split; intros; lia); try tauto;
    repeat match goal with
           | |- context [if ?q then _ else _] =>
               lazymatch q with
               | Z.ltb _ _ => destruct q eqn:?
               | _ => destruct q
               end
           end;
    repeat match goal with
           | H : (_ <? _) = true |- _ => apply Z.ltb_lt in H
           | H : (_ <? _) = false |- _ => apply Z.ltb_ge in H
           end;
    cbn; split; intros; try lia; try tauto.
Qed.

Lemma textOrder_total (direction : string) (s t : string) :
  textOrder direction s t \/ textOrder direction t s.
Proof.
  unfold textOrder. destruct (direction =? "asc")%string;
    apply String.leb_total.
Qed.

Lemma textOrder_trans (direction : string) (s t u : string) :
  textOrder direction s t -> textOrder direction t u -> textOrder direction s u.
Proof.
  unfold textOrder. destruct (direction =? "asc")%string; intros H1 H2.
  - eapply string_leb_trans; eassumption.
  - eapply string_leb_trans; eassumption.
Qed.

Lemma numberOrder_total (direction : string) (a b : option Z) :
  numberOrder direction a b \/ numberOrder direction b a.
Proof.
  unfold numberOrder. destruct (direction =? "asc")%string;
    destruct a, b; simpl; try tauto; lia.
Qed.

Lemma numberOrder_trans (direction : string) (a b c : option Z) :
  numberOrder direction a b -> numberOrder direction b c ->
  numberOrder direction a c.
Proof.
  unfold numberOrder. destruct (direction =? "asc")%string;
    destruct a, b, c; simpl; try tauto; lia.
Qed.

(** Apart from [id], which holds numbers and strings, a property of the
    employees is of one kind. *)
Lemma getProp_one_kind (property : string) :
  property <> "id" ->
  (forall e, isText (getProp e property) = true)
  \/ (forall e, isNumeric (getProp e property) = true).
Proof.
  intros Hid. unfold getProp.
  destruct (property =? "id")%string eqn:E;
    [apply String.eqb_eq in E; contradiction|].
  repeat match goal with
         | |- context [(property =? ?s)%string] =>
             destruct (property =? s)%string;
             [solve [ left; intros e; reflexivity
                    | right; intros e; destruct (salary e); reflexivity
                    | right; intros e; reflexivity ]|]
         end.
  right. intros e. reflexivity.
Qed.

Lemma byProperty_consistent (property direction : string) :
  property <> "id" ->
  (forall a b : Employee,
      before (byProperty getProp property direction) a b
      \/ before (byProperty getProp property direction) b a)
  /\ (forall a b c : Employee,
         before (byProperty getProp property direction) a b ->
         before (byProperty getProp property direction) b c ->
         before (byProperty getProp property direction) a c).
Proof.
  intros Hid. unfold before, byProperty.
  destruct (getProp_one_kind property Hid) as [Ht|Hn].
  - assert (Hs : forall e, exists s, getProp e property = JS.Str s).
    { intros e. specialize (Ht e). destruct (getProp e property);
        try discriminate. eexists. reflexivity. }
    split.
    + intros a b. destruct (Hs a) as [s ->], (Hs b) as [t ->].
      rewrite !compareValues_text. apply textOrder_total.
    + intros a b c.
      destruct (Hs a) as [s ->], (Hs b) as [t ->], (Hs c) as [u ->].
      rewrite !compareValues_text. apply textOrder_trans.
  - split.
    + intros a b. rewrite !compareValues_numeric by apply Hn.
      apply numberOrder_total.
    + intros a b c. rewrite !compareValues_numeric by apply Hn.
      apply numberOrder_trans.
Qed.

(** X12.  Sorting employees by a property other than [id] gives a sorted
    array: the comparator puts no record after one that follows it.  By
    name, the case-folded names are in the order of the direction. *)
Theorem sortByProperty_sorted (array : list Employee)
    (property direction : string) :
  property <> "id" ->
  StronglySorted (before (byProperty getProp property direction))
    (Helpers.sortByProperty getProp array property direction)
  /\ StronglySorted (textOrder direction)
       (map name (Helpers.sortByProperty getProp array "name" direction)).
Proof.
  intros Hid. split.
  - destruct (byProperty_consistent property direction Hid) as [Htot Htr].
    apply (sort_sorted (byProperty getProp property direction)); assumption.
  - assert (Hname : "name" <> "id") by discriminate.
    destruct (byProperty_consistent "name" direction Hname) as [Htot Htr].
    apply (StronglySorted_map name
             (before (byProperty getProp "name" direction))).
    + intros a b H. apply compareValues_text. exact H.
    + apply (sort_sorted (byProperty getProp "name" direction)); assumption.
Qed.

(** X12 on Ann and Ben by salary. *)
Lemma sortByProperty_sorted_witness :
  "salary" <> "id"
  /\ StronglySorted (before (byProperty getProp "salary" "desc"))
       (Helpers.sortByProperty getProp [ann; ben] "salary" "desc")
  /\ StronglySorted (textOrder "desc")
       (map name (Helpers.sortByProperty getProp [ann; ben] "name" "desc")).
Proof.
  assert (H : "salary" <> "id") by discriminate.
  split; [exact H|].
  apply (sortByProperty_sorted [ann; ben] "salary" "desc"). exact H.
Defined.

(** ** Formatting and validating *)

Lemma length_string_of_list (l : list ascii) :
  String.length (string_of_list_ascii l) = List.length l.
Proof. induction l as [|c l IH]; simpl; [reflexivity|rewrite IH; reflexivity]. Qed.

Lemma formatPhone_ten_digits (l : list ascii) :
  List.length l = 10%nat -> forallb JS.isDigit l = true ->
  let cleaned := string_of_list_ascii l in
  let shown := "(" ++ Helpers.slice 0 3 cleaned ++ ") "
                   ++ Helpers.slice 3 6 cleaned ++ "-"
                   ++ Helpers.slice 6 10 cleaned in
  JS.digitsOf shown = cleaned /\ JS.nonEmpty shown = true.
Proof.
  intros Hl Hd.
  do 11 (destruct l as [|? l]; try discriminate Hl). clear Hl.
  cbn [forallb] in Hd.
  repeat (apply andb_true_iff in Hd; destruct Hd as [? Hd]).
  split; [|reflexivity].
  unfold JS.digitsOf, Helpers.slice.
  cbn [string_of_list_ascii String.substring Nat.sub String.append
       list_ascii_of_string filter].
  repeat match goal with
         | H : JS.isDigit ?x = true |- _ => rewrite H; clear H
         end.
  reflexivity.
Qed.

(** X13.  [formatPhone] keeps the digits of a phone number and formatting
    twice is formatting once; hence a number and its formatted form are
    valid together. *)
Theorem formatPhone_idempotent (phone : string) :
  Helpers.formatPhone (Helpers.formatPhone phone) = Helpers.formatPhone phone
  /\ JS.digitsOf (Helpers.formatPhone phone) = JS.digitsOf phone
  /\ Helpers.isValidPhone (Helpers.formatPhone phone)
     = Helpers.isValidPhone phone.
Proof.
  assert (H : Helpers.formatPhone phone = phone
              \/ (JS.nonEmpty phone = true
                  /\ JS.nonEmpty (Helpers.formatPhone phone) = true
                  /\ JS.digitsOf (Helpers.formatPhone phone) = JS.digitsOf phone
                  /\ (String.length (JS.digitsOf phone) =? 10)%nat = true
                  /\ Helpers.formatPhone phone
                     = "(" ++ Helpers.slice 0 3 (JS.digitsOf phone) ++ ") "
                           ++ Helpers.slice 3 6 (JS.digitsOf phone) ++ "-"
                           ++ Helpers.slice 6 10 (JS.digitsOf phone))).
  { unfold Helpers.formatPhone.
    destruct (JS.nonEmpty phone) eqn:Hn; cbn [negb].
    - destruct (String.length (JS.digitsOf phone) =? 10)%nat eqn:E;
        [right|left; reflexivity].
      unfold JS.digitsOf in *. rewrite length_string_of_list in E.
      apply Nat.eqb_eq in E.
      destruct (formatPhone_ten_digits
                  (filter JS.isDigit (list_ascii_of_string phone)) E)
        as [Hd Hne].
      { apply forallb_forall. intros x Hx. apply filter_In in Hx. tauto. }
      split; [reflexivity|]. split; [exact Hne|]. split; [exact Hd|].
      split; reflexivity.
    - left. destruct phone; [reflexivity|discriminate Hn]. }
  destruct H as [H|(Hn & Hn' & Hd & Hlen & Hshape)].
  - rewrite !H. repeat split.
  - split; [|split; [exact Hd|]].
    + unfold Helpers.formatPhone at 1. rewrite Hn', Hd, Hlen. cbn [negb].
      symmetry. exact Hshape.
    + unfold Helpers.isValidPhone. rewrite Hn, Hn', Hd. reflexivity.
Qed.

Lemma splitsAt_spec (ch : ascii) (pre l a rest : list ascii) :
  In (a, rest) (Helpers.splitsAt ch pre l) <->
  exists a', l = (a' ++ ch :: rest)%list /\ a = (rev pre ++ a')%list.
Proof.
  revert pre. induction l as [|x l IH]; intros pre; cbn [Helpers.splitsAt].
  - split; [intros []|]. intros [a' [H _]]. destruct a'; discriminate H.
  - rewrite in_app_iff, IH. split.
    + intros [H|[a' [Hl Ha]]].
      * destruct (Ascii.eqb x ch) eqn:E; [|destruct H].
        apply Ascii.eqb_eq in E. subst x.
        destruct H as [H|[]]. injection H as <- <-.
        exists []. rewrite app_nil_r. split; reflexivity.
      * exists (x :: a'). split; [rewrite Hl; reflexivity|].
        rewrite Ha. cbn [rev]. rewrite <- app_assoc. reflexivity.
    + intros [a' [Hl Ha]]. destruct a' as [|y a'].
      * left. cbn in Hl. injection Hl as -> ->.
        rewrite Ascii.eqb_refl. left. rewrite Ha, app_nil_r. reflexivity.
      * right. cbn in Hl. injection Hl as <- ->.
        exists a'. split; [reflexivity|].
        rewrite Ha. cbn [rev]. rewrite <- app_assoc. reflexivity.
Qed.

(** X14.  [isValidEmail] accepts exactly the strings made of a run, an at
    sign, a run, a dot and a run, where a run is one or more characters
    that are neither white space nor an at sign. *)
Theorem isValidEmail_shape (mail : string) :
  Helpers.isValidEmail mail = true <-> emailShape (list_ascii_of_string mail).
Proof.
  unfold Helpers.isValidEmail, emailShape. rewrite existsb_exists. split.
  - intros [[a rest] [Hin H]]. cbn [fst snd] in H.
    apply andb_true_iff in H. destruct H as [Ha H].
    apply existsb_exists in H. destruct H as [[b c] [Hin' H]].
    cbn [fst snd] in H. apply andb_true_iff in H. destruct H as [Hb Hc].
    apply splitsAt_spec in Hin. destruct Hin as [a' [Hl Hq]].
    apply splitsAt_spec in Hin'. destruct Hin' as [b' [Hl' Hq']].
    cbn in Hq, Hq'. subst a' b'.
    exists a, b, c. rewrite Hl, Hl'. tauto.
  - intros (a & b & c & Hl & Ha & Hb & Hc).
    exists (a, (b ++ "."%char :: c)%list). split.
    + apply splitsAt_spec. exists a. split; [exact Hl|reflexivity].
    + cbn [fst snd]. rewrite Ha. cbn [andb].
      apply existsb_exists. exists (b, c). split.
      * apply splitsAt_spec. exists b. split; reflexivity.
      * cbn [fst snd]. rewrite Hb, Hc. reflexivity.
Qed.

Lemma includes_empty (t : string) : t <> "" -> JS.includes "" t = false.
Proof. destruct t; [congruence|reflexivity]. Qed.

(** X15.  On employees, [Helpers.filterBySearch] over the five searched
    fields keeps the records [matchesSearch] accepts, in their order. *)
Theorem filterBySearch_is_matchesSearch (array : list Employee)
    (searchTerm : string) :
  filterBySearch getProp array searchTerm searchKeys
  = filter (fun e => matchesSearch e searchTerm) array.
Proof.
  unfold filterBySearch, matchesSearch, searchKeys.
  destruct (JS.nonEmpty searchTerm) eqn:Hn; cbn [negb].
  - apply filter_ext. intros e.
    assert (Hterm : JS.toLowerCase searchTerm <> "").
    { intros H. apply -> toLowerCase_empty in H. apply nonEmpty_true in Hn.
      contradiction. }
    assert (Hf : forall f,
               negb (JS.isNullish (JS.Str f))
               && JS.includes (JS.toLowerCase (valueToString (JS.Str f)))
                    (JS.toLowerCase searchTerm)
               = JS.nonEmpty f
                 && JS.includes (JS.toLowerCase f) (JS.toLowerCase searchTerm)).
    { intros f. destruct f as [|ch f]; [|reflexivity].
      cbn [JS.isNullish negb valueToString JS.toLowerCase JS.nonEmpty andb].
      apply includes_empty. exact Hterm. }
    unfold searchFields. cbn [existsb].
    change (getProp e "name") with (JS.Str (name e)).
    change (getProp e "email") with (JS.Str (email e)).
    change (getProp e "department") with (JS.Str (department e)).
    change (getProp e "position") with (JS.Str (position e)).
    change (getProp e "phone") with (JS.Str (phone e)).
    cbv zeta. rewrite !Hf. reflexivity.
  - induction array as [|e array IH]; [reflexivity|].
    cbn [filter]. rewrite <- IH. reflexivity.
Qed.

(** ** Building and rebuilding employees *)

Lemma orString_nonEmpty (v : option string) (d : string) :
  d <> "" -> orString v d <> "".
Proof.
  intros Hd. unfold orString. destruct v as [s|]; [|exact Hd].
  destruct (JS.nonEmpty s) eqn:E; [apply nonEmpty_true; exact E|exact Hd].
Qed.

Lemma orString_same (s : string) (d : string) :
  s <> "" -> orString (Some s) d = s.
Proof. intros H. unfold orString. destruct s; [congruence|reflexivity]. Qed.

Lemma orString_own (s : string) : orString (Some s) "" = s.
Proof. destruct s; reflexivity. Qed.

(** X16.  An employee built by the constructor, with a usable generated
    identifier and date at hand, is rebuilt by the constructor from its
    [toObject()]: every field comes back, the computed ones included. *)
Theorem toObject_round_trip (generatedId other : ident) (now later : string)
    (data : Data.t) :
  truthyId generatedId = true -> now <> "" ->
  newEmployee other later (toObject (newEmployee generatedId now data))
  = newEmployee generatedId now data.
Proof.
  intros Hg Hn.
  set (e := newEmployee generatedId now data).
  assert (Hid : truthyId (id e) = true).
  { unfold e, newEmployee. cbn [id].
    destruct (Data.id data) as [i|]; [|exact Hg].
    destruct (truthyId i) eqn:E; [exact E|exact Hg]. }
  assert (Hh : hireDate e <> "").
  { apply orString_nonEmpty. exact Hn. }
  assert (Ha : avatar e <> "").
  { apply orString_nonEmpty. discriminate. }
  assert (Hs : exists n, salary e = Some n
                         /\ (if n =? 0 then Some 0 else Some n) = Some n).
  { unfold e, newEmployee. cbn [salary].
    destruct (Data.salary data) as [[n|]|]; try (exists 0; split; reflexivity).
    destruct (n =? 0) eqn:E; [exists 0; split; reflexivity|].
    exists n. rewrite E. split; reflexivity. }
  destruct Hs as [n [Hs Hs']].
  assert (Hd : fullName e = name e
               /\ displaySalary e = Helpers.formatCurrency (salary e)
               /\ formattedPhone e = Helpers.formatPhone (phone e)).
  { repeat split. }
  destruct Hd as [Hf [Hds Hfp]].
  clearbody e. destruct e as [i nm em ph dp po sa hd ac av fn ds fp].
  cbn [id name email phone department position salary hireDate isActive
       avatar fullName displaySalary formattedPhone] in *.
  unfold newEmployee, toObject.
  cbn [Data.id Data.name Data.email Data.phone Data.department Data.position
       Data.salary Data.hireDate Data.isActive Data.avatar
       id name email phone department position salary hireDate isActive
       avatar fullName displaySalary formattedPhone].
  rewrite Hid, !orString_own, (orString_same hd) by exact Hh.
  rewrite (orString_same av) by exact Ha.
  subst sa. rewrite Hs'. subst fn ds fp. reflexivity.
Qed.

(** X16 on Ann. *)
Lemma toObject_round_trip_witness :
  truthyId (IdStr "lq3x8k2f0b") = true /\ "2024-05-01T09:00:00.000Z" <> ""
  /\ newEmployee (IdStr "other") "later"
       (toObject (newEmployee (IdStr "lq3x8k2f0b") "2024-05-01T09:00:00.000Z"
                    annData))
     = newEmployee (IdStr "lq3x8k2f0b") "2024-05-01T09:00:00.000Z" annData.
Proof.
  assert (H : "2024-05-01T09:00:00.000Z" <> "") by discriminate.
  split; [reflexivity|]. split; [exact H|].
  apply (toObject_round_trip (IdStr "lq3x8k2f0b") (IdStr "other")
           "2024-05-01T09:00:00.000Z" "later" annData); [reflexivity|exact H].
Defined.

Lemma mod_cases_6 (k : nat) :
  (k mod 6 = 0 \/ k mod 6 = 1 \/ k mod 6 = 2 \/ k mod 6 = 3
   \/ k mod 6 = 4 \/ k mod 6 = 5)%nat.
Proof. pose proof (Nat.mod_upper_bound k 6). lia. Qed.

Lemma mod_cases_4 (k : nat) :
  (k mod 4 = 0 \/ k mod 4 = 1 \/ k mod 4 = 2 \/ k mod 4 = 3)%nat.
Proof. pose proof (Nat.mod_upper_bound k 4). lia. Qed.

(** X17.  Whatever the draws and the remote user record, the employee
    [fromApiData] makes is active, its department is one of the six, its
    position is one of that department's four, its salary is a number
    from 40000 up to, not including, 120000, and [validate] can only find
    fault with its name, email or phone. *)
Theorem fromApiData_in_bounds (d : EmployeeAPI.Draw)
    (apiData : EmployeeAPI.User) :
  let e := EmployeeAPI.fromApiData d apiData in
  isActive e = true
  /\ In (department e) EmployeeAPI.departments
  /\ In (position e) (EmployeeAPI.positions (department e))
  /\ (exists n, salary e = Some n /\ 40000 <= n < 120000)
  /\ forall message, In message (errors (validate e)) -> In message userMessages.
Proof.
  intros e.
  assert (Hsal : salary e = Some (EmployeeAPI.salaryDraw d mod 80000 + 40000)).
  { unfold e, EmployeeAPI.fromApiData, newEmployee. cbn [Data.salary salary].
    pose proof (Z.mod_pos_bound (EmployeeAPI.salaryDraw d) 80000 ltac:(lia)).
    destruct (EmployeeAPI.salaryDraw d mod 80000 + 40000 =? 0) eqn:E;
      [apply Z.eqb_eq in E; lia|reflexivity]. }
  assert (Hbound : 40000 <= EmployeeAPI.salaryDraw d mod 80000 + 40000 < 120000).
  { pose proof (Z.mod_pos_bound (EmployeeAPI.salaryDraw d) 80000 ltac:(lia)).
    lia. }
  assert (Hdp : In (department e) EmployeeAPI.departments
                /\ In (position e) (EmployeeAPI.positions (department e))
                /\ JS.nonEmpty (department e) = true
                /\ (JS.len (JS.trim (department e)) =? 0) = false
                /\ JS.nonEmpty (position e) = true
                /\ (JS.len (JS.trim (position e)) <? 2) = false).
  { unfold e, EmployeeAPI.fromApiData, newEmployee.
    cbn [Data.department Data.position department position].
    change (List.length EmployeeAPI.departments) with 6%nat.
    destruct (mod_cases_6 (EmployeeAPI.departmentDraw d))
      as [H|[H|[H|[H|[H|H]]]]]; rewrite H;
      cbn [nth EmployeeAPI.departments];
      match goal with
      | |- context [EmployeeAPI.positions ?dept] =>
          let l := eval cbv in (EmployeeAPI.positions dept) in
          change (EmployeeAPI.positions dept) with l
      end;
      cbn [List.length];
      destruct (mod_cases_4 (EmployeeAPI.positionDraw d)) as [K|[K|[K|K]]];
      rewrite K; vm_compute; intuition congruence. }
  destruct Hdp as (Hd & Hp & Hd1 & Hd2 & Hp1 & Hp2).
  split; [reflexivity|]. split; [exact Hd|]. split; [exact Hp|].
  split; [eexists; split; [exact Hsal|exact Hbound]|].
  intros message. unfold validate. cbn [errors].
  rewrite Hd1, Hd2, Hp1, Hp2, Hsal. cbn [negb orb].
  destruct (EmployeeAPI.salaryDraw d mod 80000 + 40000 <? 0) eqn:E;
    [apply Z.ltb_lt in E; lia|].
  rewrite andb_false_r. rewrite !app_nil_r.
  rewrite !in_app_iff. unfold userMessages.
  intros [H|[H|H]].
  - destruct (_ || _) in H; [|destruct H].
    destruct H as [<-|[]]. left. reflexivity.
  - destruct (_ || _) in H; [|destruct H].
    destruct H as [<-|[]]. right. left. reflexivity.
  - destruct (_ && _) in H; [|destruct H].
    destruct H as [<-|[]]. right. right. left. reflexivity.
Qed.

Lemma pick_pick {A : Type} (v : option A) (x : A) :
  pick v (pick v x) = pick v x.
Proof. destruct v; reflexivity. Qed.

Lemma update_twice (e : Employee) (data : Data.t) :
  update (update e data) data = update e data.
Proof.
  rewrite !update_closed_form.
  destruct e as [i nm em ph dp po sa hd ac av fn ds fp].
  unfold recompute, merged.
  cbn [id name email phone department position salary hireDate isActive
       avatar fullName displaySalary formattedPhone
       setFullName setDisplaySalary setFormattedPhone setAvatar].
  rewrite !pick_pick. reflexivity.
Qed.

Lemma update_keeps_id (e : Employee) (data : Data.t) :
  id (update e data) = id e.
Proof. rewrite update_closed_form. reflexivity. Qed.

Lemma changeFirst_twice {A : Type} (p : A -> bool) (f : A -> A) (l : list A) :
  (forall y, p (f y) = p y) -> (forall y, f (f y) = f y) ->
  changeFirst p f (changeFirst p f l) = changeFirst p f l.
Proof.
  intros Hp Hf. induction l as [|y l IH]; simpl; [reflexivity|].
  destruct (p y) eqn:Hy; simpl.
  - rewrite Hp, Hy, Hf. reflexivity.
  - rewrite Hy, IH. reflexivity.
Qed.

(** X18.  An update that went through can be repeated: the second
    [updateEmployee] with the same arguments does not throw, returns the
    same employee and leaves the same records and view; only the
    observers are called once more.  For the record itself, [update]
    twice is [update] once. *)
Theorem updateEmployee_repeatable (i : ident) (data : Data.t)
    (c c1 : EmployeeCollection) (e : Employee) :
  updateEmployee i data c = Returned (Some e) c1 ->
  update e data = e
  /\ exists c2,
      updateEmployee i data c1 = Returned (Some e) c2
      /\ employees c2 = employees c1
      /\ filteredEmployees c2 = filteredEmployees c1
      /\ currentPage c2 = currentPage c1
      /\ calls c2 = (calls c1 ++ observers c1)%list.
Proof.
  unfold updateEmployee at 1.
  destruct (findById c i) as [employee|] eqn:Hfind; [|discriminate].
  destruct (emailTaken c employee data) eqn:Ht; [discriminate|].
  intros H. injection H as He Hc1.
  assert (Hupd : update e data = e).
  { rewrite <- He. apply update_twice. }
  split; [exact Hupd|].
  set (p := fun emp : Employee => sameId (id emp) i) in *.
  set (f := fun emp : Employee => update emp data) in *.
  assert (Hp : forall y, p (f y) = p y).
  { intros y. unfold p, f. rewrite update_keeps_id. reflexivity. }
  assert (Hemp : employees c1 = changeFirst p f (employees c)).
  { rewrite <- Hc1. reflexivity. }
  assert (Hfind1 : findById c1 i = Some e).
  { unfold findById. fold p. rewrite Hemp, <- He.
    apply (changeFirst_find p f); [exact Hp|exact Hfind]. }
  assert (Ht1 : emailTaken c1 e data = false).
  { unfold emailTaken. destruct (Data.email data) as [mail|] eqn:Hm;
      [|reflexivity].
    assert (Hmail : email e = mail).
    { rewrite <- He, email_after_update, Hm. reflexivity. }
    rewrite Hmail, String.eqb_refl. cbn [negb].
    rewrite andb_false_r. reflexivity. }
  unfold updateEmployee. rewrite Hfind1, Ht1. fold p f.
  assert (Hsame : changeFirst p f (employees c1) = employees c1).
  { rewrite Hemp. apply changeFirst_twice; [exact Hp|].
    intros y. apply update_twice. }
  eexists. split; [rewrite Hupd; reflexivity|].
  cbn [employees filteredEmployees currentPage calls notifyObservers
       applyFilters withCalls withFiltered withEmployees observers].
  split; [exact Hsame|]. split; [|split; reflexivity].
  rewrite <- Hc1 at 2.
  cbn [filteredEmployees notifyObservers applyFilters withCalls withFiltered].
  unfold filteredView.
  cbn [employees searchTerm departmentFilters sortField sortDirection
       withEmployees].
  rewrite Hsame. rewrite <- Hc1. reflexivity.
Qed.

(** X18 on Ann's collection, Ann's salary set to [null]. *)
Lemma updateEmployee_repeatable_witness :
  let c1 := stateOf (updateEmployee (IdNum 1) nullSalary annAlone) in
  let e := update ann nullSalary in
  updateEmployee (IdNum 1) nullSalary annAlone = Returned (Some e) c1
  /\ update e nullSalary = e
  /\ exists c2,
      updateEmployee (IdNum 1) nullSalary c1 = Returned (Some e) c2
      /\ employees c2 = employees c1
      /\ filteredEmployees c2 = filteredEmployees c1
      /\ currentPage c2 = currentPage c1
      /\ calls c2 = (calls c1 ++ observers c1)%list.
Proof.
  intros c1 e. split; [reflexivity|].
  apply (updateEmployee_repeatable (IdNum 1) nullSalary annAlone c1 e).
  reflexivity.
Defined.

(** ** Workflows of the service *)

Lemma setLoading_flag (b : bool) (s : DataService.t) :
  DataService.isLoading (DataService.setLoading b s) = b.
Proof.
  unfold DataService.setLoading.
  destruct (Bool.eqb (DataService.isLoading s) b) eqn:E; [|reflexivity].
  apply Bool.eqb_prop. exact E.
Qed.

Lemma setLoading_collection (b : bool) (s : DataService.t) :
  DataService.employeeCollection (DataService.setLoading b s)
  = DataService.employeeCollection s.
Proof.
  unfold DataService.setLoading.
  destruct (Bool.eqb (DataService.isLoading s) b); reflexivity.
Qed.

Lemma absorbed_collection (text : string) (failure : option string)
    (s : DataService.t) :
  DataService.employeeCollection (DataService.absorbed text failure s)
  = DataService.employeeCollection s.
Proof. destruct failure; reflexivity. Qed.

Lemma settle_flag {A : Type} (what : string) (r : DataService.outcome A) :
  DataService.isLoading (DataService.serviceOf (DataService.settle what r))
  = false.
Proof. destruct r; cbn; apply setLoading_flag. Qed.

Lemma settle_collection {A : Type} (what : string)
    (r : DataService.outcome A) :
  DataService.employeeCollection
    (DataService.serviceOf (DataService.settle what r))
  = DataService.employeeCollection (DataService.serviceOf r).
Proof. destruct r; cbn; rewrite setLoading_collection; reflexivity. Qed.

Lemma settle_failed {A : Type} (what : string) (r : DataService.outcome A) :
  (exists v s, DataService.settle what r = DataService.Done v s
               /\ exists s0, r = DataService.Done v s0)
  \/ (exists m s, DataService.settle what r = DataService.Failed m s
                  /\ exists s0, r = DataService.Failed m s0).
Proof.
  destruct r as [v s|m s]; [left|right]; cbn; eauto.
Qed.

Lemma perform_add (g : ident) (now : string) (d : Data.t)
    (failure : option string) (s : DataService.t) :
  perform (Add g now d) failure s
  = (errorOf (DataService.addEmployee g now d failure s),
     DataService.serviceOf (DataService.addEmployee g now d failure s)).
Proof. cbn. destruct (DataService.addEmployee g now d failure s); reflexivity. Qed.

Lemma perform_update (g : ident) (now : string) (i : ident) (d : Data.t)
    (failure : option string) (s : DataService.t) :
  perform (Update g now i d) failure s
  = (errorOf (DataService.updateEmployee g now i d failure s),
     DataService.serviceOf (DataService.updateEmployee g now i d failure s)).
Proof.
  cbn. destruct (DataService.updateEmployee g now i d failure s); reflexivity.
Qed.

Lemma perform_delete (i : ident) (failure : option string)
    (s : DataService.t) :
  perform (Delete i) failure s
  = (errorOf (DataService.deleteEmployee i failure s),
     DataService.serviceOf (DataService.deleteEmployee i failure s)).
Proof. cbn. destruct (DataService.deleteEmployee i failure s); reflexivity. Qed.

Lemma errorOf_settle {A : Type} (what : string) (r : DataService.outcome A) :
  errorOf (DataService.settle what r) = errorOf r.
Proof. destruct r; reflexivity. Qed.

Lemma add_inner (g : ident) (now : string) (d : Data.t)
    (failure : option string) (s : DataService.t) :
  let r := DataService.addEmployee g now d failure s in
  match errorOf r with
  | Some _ =>
      DataService.employeeCollection (DataService.serviceOf r)
      = DataService.employeeCollection s
  | None =>
      isValid (validate (newEmployee g now d)) = true
      /\ DataService.employeeCollection (DataService.serviceOf r)
         = afterAdd (newEmployee g now d) (DataService.employeeCollection s)
  end.
Proof.
  intros r. unfold r, DataService.addEmployee.
  rewrite errorOf_settle, settle_collection.
  destruct (isValid (validate (newEmployee g now d))); cbn [negb].
  - set (s1 := DataService.absorbed _ failure _).
    assert (Hc : DataService.employeeCollection s1
                 = DataService.employeeCollection s).
    { unfold s1. rewrite absorbed_collection. cbn.
      apply setLoading_collection. }
    rewrite Hc.
    destruct (addEmployee_cases g now (Instance (newEmployee g now d))
                (DataService.employeeCollection s)) as [[_ Ha]|[_ Ha]];
      rewrite Ha; cbn; [reflexivity|].
    split; reflexivity.
  - cbn. apply setLoading_collection.
Qed.

Lemma update_inner (g : ident) (now : string) (i : ident) (d : Data.t)
    (failure : option string) (s : DataService.t) :
  let r := DataService.updateEmployee g now i d failure s in
  match errorOf r with
  | Some _ =>
      DataService.employeeCollection (DataService.serviceOf r)
      = DataService.employeeCollection s
  | None =>
      isValid (validate (newEmployee g now (DataService.withId i d))) = true
      /\ exists e,
          updateEmployee i d (DataService.employeeCollection s)
          = Returned (Some e)
              (DataService.employeeCollection (DataService.serviceOf r))
  end.
Proof.
  intros r. unfold r, DataService.updateEmployee.
  rewrite errorOf_settle, settle_collection.
  destruct (isValid (validate (newEmployee g now (DataService.withId i d))));
    cbn [negb].
  - set (s1 := DataService.absorbed _ failure _).
    assert (Hc : DataService.employeeCollection s1
                 = DataService.employeeCollection s).
    { unfold s1. rewrite absorbed_collection. cbn.
      apply setLoading_collection. }
    rewrite Hc.
    destruct (updateEmployee i d (DataService.employeeCollection s))
      as [[e|] c|m c] eqn:Hu; cbn.
    + split; [reflexivity|]. exists e. reflexivity.
    + unfold updateEmployee in Hu.
      destruct (findById (DataService.employeeCollection s) i).
      * destruct (emailTaken _ _ d); discriminate Hu.
      * injection Hu as <-. reflexivity.
    + apply updateEmployee_throws_iff in Hu. destruct Hu as (_ & -> & _).
      reflexivity.
  - cbn. apply setLoading_collection.
Qed.

Lemma delete_inner (i : ident) (failure : option string)
    (s : DataService.t) :
  let r := DataService.deleteEmployee i failure s in
  match findById (DataService.employeeCollection s) i with
  | None =>
      errorOf r = Some "Employee not found"
      /\ DataService.employeeCollection (DataService.serviceOf r)
         = DataService.employeeCollection s
  | Some e =>
      r = DataService.Done true (DataService.serviceOf r)
      /\ DataService.employeeCollection (DataService.serviceOf r)
         = snd (removeEmployee i (DataService.employeeCollection s))
  end.
Proof.
  intros r. unfold r, DataService.deleteEmployee.
  rewrite setLoading_collection.
  destruct (findById (DataService.employeeCollection s) i) as [e|] eqn:Hf.
  - set (s1 := DataService.absorbed _ failure _).
    assert (Hc : DataService.employeeCollection s1
                 = DataService.employeeCollection s).
    { unfold s1. rewrite absorbed_collection. cbn.
      apply setLoading_collection. }
    rewrite Hc.
    destruct (removeEmployee_found i _ e Hf) as [Htrue _].
    destruct (removeEmployee i (DataService.employeeCollection s))
      as [success c] eqn:Hrem.
    cbn [fst] in Htrue. subst success. cbn [negb snd].
    split; [reflexivity|]. cbn. rewrite setLoading_collection. reflexivity.
  - split; [reflexivity|]. cbn [DataService.settle DataService.serviceOf].
    rewrite setLoading_collection.
    cbn [DataService.emit DataService.notify DataService.employeeCollection].
    apply setLoading_collection.
Qed.

(** X19.  After a write workflow of the service, whether it returned or
    rejected, the loading flag is off.  A workflow that rejects leaves the
    collection as it was; one that returns leaves it with a current
    view. *)
Theorem workflow_clears_loading_and_fails_cleanly (w : workflow)
    (failure : option string) (s : DataService.t) :
  DataService.isLoading (snd (perform w failure s)) = false
  /\ match fst (perform w failure s) with
     | Some _ =>
         DataService.employeeCollection (snd (perform w failure s))
         = DataService.employeeCollection s
     | None =>
         viewCurrent (DataService.employeeCollection (snd (perform w failure s)))
     end.
Proof.
  destruct w as [g now d|g now i d|i].
  - rewrite perform_add. cbn [fst snd]. split.
    + unfold DataService.addEmployee. apply settle_flag.
    + pose proof (add_inner g now d failure s) as H. cbv zeta in H.
      destruct (errorOf _); [exact H|].
      destruct H as [_ ->]. reflexivity.
  - rewrite perform_update. cbn [fst snd]. split.
    + unfold DataService.updateEmployee. apply settle_flag.
    + pose proof (update_inner g now i d failure s) as H. cbv zeta in H.
      destruct (errorOf _); [exact H|].
      destruct H as [_ [e He]].
      clear -He. unfold updateEmployee in He.
      destruct (findById _ i); [|discriminate He].
      destruct (emailTaken _ _ d); [discriminate He|].
      injection He as _ <-. reflexivity.
  - rewrite perform_delete. cbn [fst snd]. split.
    + unfold DataService.deleteEmployee. apply settle_flag.
    + pose proof (delete_inner i failure s) as H. cbv zeta in H.
      destruct (findById (DataService.employeeCollection s) i) as [e|] eqn:Hf.
      * destruct H as [-> ->]. cbn [errorOf].
        apply (removeEmployee_found i _ e Hf).
      * destruct H as [-> ->]. reflexivity.
Qed.

Lemma quiet_emit (x : DataService.effect) (s : DataService.t) :
  quiet (DataService.emit x s)
  = match x with
    | DataService.Warning _ => quiet s
    | _ => DataService.emit x (quiet s)
    end.
Proof.
  unfold quiet, DataService.emit, withoutWarnings. cbn.
  rewrite filter_app. destruct x; cbn; rewrite ?app_nil_r; reflexivity.
Qed.

Lemma quiet_setLoading (b : bool) (s : DataService.t) :
  quiet (DataService.setLoading b s) = DataService.setLoading b (quiet s).
Proof.
  unfold DataService.setLoading. cbn [quiet DataService.isLoading].
  destruct (Bool.eqb (DataService.isLoading s) b); [reflexivity|].
  unfold DataService.notify. rewrite !quiet_emit. reflexivity.
Qed.

Lemma quiet_absorbed (text : string) (failure : option string)
    (s : DataService.t) :
  quiet (DataService.absorbed text failure s) = quiet s.
Proof. destruct failure; [apply quiet_emit|reflexivity]. Qed.

Lemma quiet_withCollection (c : EmployeeCollection) (s : DataService.t) :
  quiet (DataService.withCollection c s) = DataService.withCollection c (quiet s).
Proof. reflexivity. Qed.

Lemma quiet_settle {A : Type} (what : string) (r : DataService.outcome A) :
  quiet (DataService.serviceOf (DataService.settle what r))
  = DataService.serviceOf
      (DataService.settle what
         match r with
         | DataService.Done v s => DataService.Done v (quiet s)
         | DataService.Failed m s => DataService.Failed m (quiet s)
         end).
Proof.
  destruct r as [v s|m s]; cbn [DataService.settle DataService.serviceOf].
  - apply quiet_setLoading.
  - rewrite quiet_setLoading. unfold DataService.notify.
    rewrite !quiet_emit. reflexivity.
Qed.

(** X20.  A remote write that fails changes nothing but the log: the
    workflow returns or rejects as it does when the remote write
    succeeds, with the same collection, loading flag, events, toasts and
    overlay. *)
Theorem remote_failure_only_warns (w : workflow) (failure : option string)
    (s : DataService.t) :
  fst (perform w failure s) = fst (perform w None s)
  /\ quiet (snd (perform w failure s)) = quiet (snd (perform w None s)).
Proof.
  destruct w as [g now d|g now i d|i].
  - rewrite !perform_add. cbn [fst snd].
    unfold DataService.addEmployee.
    rewrite !errorOf_settle, !quiet_settle.
    destruct (isValid (validate (newEmployee g now d))); cbn [negb];
      [|split; reflexivity].
    rewrite !absorbed_collection.
    destruct (addEmployee g now (Instance (newEmployee g now d)) _);
      cbn [errorOf]; (split; [reflexivity|]);
      unfold DataService.notify;
      rewrite ?quiet_emit, ?quiet_withCollection, !quiet_absorbed;
      reflexivity.
  - rewrite !perform_update. cbn [fst snd].
    unfold DataService.updateEmployee.
    rewrite !errorOf_settle, !quiet_settle.
    destruct (isValid (validate (newEmployee g now (DataService.withId i d))));
      cbn [negb]; [|split; reflexivity].
    rewrite !absorbed_collection.
    destruct (updateEmployee i d _) as [[e|] c|m c];
      cbn [errorOf]; (split; [reflexivity|]);
      unfold DataService.notify;
      rewrite ?quiet_emit, ?quiet_withCollection, !quiet_absorbed;
      reflexivity.
  - rewrite !perform_delete. cbn [fst snd].
    unfold DataService.deleteEmployee.
    rewrite !errorOf_settle, !quiet_settle.
    destruct (findById _ i) as [e|]; [|split; reflexivity].
    rewrite !absorbed_collection.
    destruct (removeEmployee i _) as [success c].
    destruct success; cbn [negb errorOf]; (split; [reflexivity|]);
      unfold DataService.notify;
      rewrite ?quiet_emit, ?quiet_withCollection, !quiet_absorbed;
      reflexivity.
Qed.

Lemma setLoading_In (b : bool) (s : DataService.t) (x : DataService.effect) :
  In x (DataService.effects (DataService.setLoading b s)) ->
  In x (DataService.effects s)
  \/ x = DataService.Event "loading_changed" (DataService.OfLoading b)
  \/ x = DataService.Overlay b.
Proof.
  unfold DataService.setLoading.
  destruct (Bool.eqb (DataService.isLoading s) b); [tauto|].
  cbn [DataService.notify DataService.emit DataService.effects].
  rewrite !in_app_iff. cbn [In]. intuition auto.
Qed.

Lemma setLoading_keeps (b : bool) (s : DataService.t) (x : DataService.effect) :
  In x (DataService.effects s) ->
  In x (DataService.effects (DataService.setLoading b s)).
Proof.
  unfold DataService.setLoading.
  destruct (Bool.eqb (DataService.isLoading s) b); [tauto|].
  cbn [DataService.notify DataService.emit DataService.effects].
  rewrite !in_app_iff. tauto.
Qed.

(** X21.  [deleteEmployee] of the service rejects exactly when no record
    has the identifier, with the error "Employee not found", the
    collection untouched and no [delete_start] event sent; otherwise it
    returns [true] with the record removed.  The error for a failed
    removal never occurs. *)
Theorem deleteEmployee_outcome (i : ident) (failure : option string)
    (s : DataService.t) :
  let r := DataService.deleteEmployee i failure s in
  match findById (DataService.employeeCollection s) i with
  | None =>
      errorOf r = Some "Employee not found"
      /\ DataService.employeeCollection (DataService.serviceOf r)
         = DataService.employeeCollection s
      /\ forall p,
          In (DataService.Event "delete_start" p)
             (DataService.effects (DataService.serviceOf r)) ->
          In (DataService.Event "delete_start" p) (DataService.effects s)
  | Some e =>
      r = DataService.Done true (DataService.serviceOf r)
      /\ DataService.employeeCollection (DataService.serviceOf r)
         = snd (removeEmployee i (DataService.employeeCollection s))
      /\ In (DataService.Event "delete_complete" (DataService.OfDelete i e))
            (DataService.effects (DataService.serviceOf r))
  end.
Proof.
  intros r. pose proof (delete_inner i failure s) as H. cbv zeta in H.
  fold r in H.
  destruct (findById (DataService.employeeCollection s) i) as [e|] eqn:Hf.
  - destruct H as [H1 H2]. split; [exact H1|]. split; [exact H2|].
    unfold r, DataService.deleteEmployee. rewrite setLoading_collection, Hf.
    destruct (removeEmployee_found i _ e Hf) as [Htrue _].
    rewrite absorbed_collection.
    cbn [DataService.notify DataService.emit DataService.employeeCollection].
    rewrite setLoading_collection.
    destruct (removeEmployee i (DataService.employeeCollection s))
      as [success c].
    cbn [fst] in Htrue. subst success.
    cbn [negb DataService.settle DataService.serviceOf].
    apply setLoading_keeps.
    cbn [DataService.notify DataService.emit DataService.withCollection
         DataService.effects].
    rewrite !in_app_iff. cbn [In]. tauto.
  - destruct H as [H1 H2]. split; [exact H1|]. split; [exact H2|].
    intros p. unfold r, DataService.deleteEmployee.
    rewrite setLoading_collection, Hf.
    cbn [DataService.settle DataService.serviceOf].
    intros Hin. apply setLoading_In in Hin.
    destruct Hin as [Hin|[Hin|Hin]]; try discriminate Hin.
    cbn [DataService.notify DataService.emit DataService.effects] in Hin.
    rewrite !in_app_iff in Hin. cbn [In] in Hin.
    destruct Hin as [[Hin|[Hin|[]]]|[Hin|[]]]; try discriminate Hin.
    apply setLoading_In in Hin.
    destruct Hin as [Hin|[Hin|Hin]]; try discriminate Hin. exact Hin.
Qed.

(** X22.  [updateEmployee] of the service validates an employee built
    from the data alone: data without a name is rejected with the message
    about the name, whatever the stored record holds, and the collection
    is left as it was. *)
Theorem service_update_needs_name (generatedId : ident) (now : string)
    (i : ident) (data : Data.t) (failure : option string)
    (s : DataService.t) :
  Data.name data = None ->
  exists message s',
    DataService.updateEmployee generatedId now i data failure s
    = DataService.Failed message s'
    /\ DataService.employeeCollection s' = DataService.employeeCollection s
    /\ occursIn "Name must be at least 2 characters long" message.
Proof.
  intros Hname.
  pose proof (update_inner generatedId now i data failure s) as Hin.
  cbv zeta in Hin.
  set (temp := newEmployee generatedId now (DataService.withId i data)) in *.
  assert (Hn : name temp = "").
  { unfold temp, newEmployee. cbn [name DataService.withId Data.name].
    rewrite Hname. reflexivity. }
  assert (Herr : exists rest,
             errors (validate temp)
             = "Name must be at least 2 characters long" :: rest).
  { unfold validate. cbn [errors]. rewrite Hn. cbn [JS.nonEmpty negb orb app].
    eexists. reflexivity. }
  destruct Herr as [rest Herr].
  assert (Hv : isValid (validate temp) = false).
  { unfold validate in *. cbn [isValid errors] in *. rewrite Herr.
    reflexivity. }
  unfold DataService.updateEmployee in *. fold temp in Hin |- *.
  rewrite Hv in *. cbn [negb] in *.
  cbn [DataService.settle errorOf DataService.serviceOf] in *.
  eexists. eexists. split; [reflexivity|]. split; [exact Hin|].
  rewrite Herr. destruct rest as [|x rest].
  - exists "", "". reflexivity.
  - cbn [String.concat]. exists "". eexists. reflexivity.
Qed.

(** X22 on Ann's collection, Ann's salary set to [null] through the
    service. *)
Lemma service_update_needs_name_witness :
  let s := DataService.mk annAlone false None [] in
  Data.name nullSalary = None
  /\ exists message s',
      DataService.updateEmployee (IdStr "lq3x8k2f0b")
        "2024-05-01T09:00:00.000Z" (IdNum 1) nullSalary None s
      = DataService.Failed message s'
      /\ DataService.employeeCollection s' = DataService.employeeCollection s
      /\ occursIn "Name must be at least 2 characters long" message.
Proof.
  intros s. split; [reflexivity|].
  apply (service_update_needs_name (IdStr "lq3x8k2f0b")
           "2024-05-01T09:00:00.000Z" (IdNum 1) nullSalary None s).
  reflexivity.
Defined.

(** ** Page buttons *)

Lemma fromTo_three (a : Z) : fromTo a (a + 2) = [a; a + 1; a + 2].
Proof.
  unfold fromTo. replace (a + 2 - a + 1) with 3 by lia.
  change (Z.to_nat 3) with 3%nat. cbn [seq map].
  repeat (f_equal; try lia).
Qed.

Lemma fromTo_four (a : Z) : fromTo a (a + 3) = [a; a + 1; a + 2; a + 3].
Proof.
  unfold fromTo. replace (a + 3 - a + 1) with 4 by lia.
  change (Z.to_nat 4) with 4%nat. cbn [seq map].
  repeat (f_equal; try lia).
Qed.

(** X23.  With more than seven pages, [generatePageNumbers] gives seven
    buttons, from page 1 to the last page, with the page numbers in
    strictly increasing order and the current page among them when it is
    in range. *)
Theorem generatePageNumbers_seven (currentPage totalPages : Z) :
  7 < totalPages ->
  let pages := generatePageNumbers currentPage totalPages in
  List.length pages = 7%nat
  /\ hd Ellipsis pages = PageNumber 1
  /\ last pages Ellipsis = PageNumber totalPages
  /\ StronglySorted Z.lt (numbersOf pages)
  /\ (1 <= currentPage <= totalPages -> In (PageNumber currentPage) pages).
Proof.
  intros Ht pages. unfold pages, generatePageNumbers.
  destruct (totalPages <=? 7) eqn:E; [apply Z.leb_le in E; lia|]. clear E.
  destruct (5 <? totalPages) eqn:E; [|apply Z.ltb_ge in E; lia]. clear E.
  destruct (1 <? totalPages) eqn:E; [|apply Z.ltb_ge in E; lia]. clear E.
  destruct (currentPage <=? 4) eqn:E1.
  - apply Z.leb_le in E1. rewrite Z.min_l by lia.
    change (fromTo 2 5) with [2; 3; 4; 5].
    cbn [map app List.length hd last numbersOf].
    split; [reflexivity|]. split; [reflexivity|]. split; [reflexivity|].
    split.
    + repeat constructor; lia.
    + intros Hc. cbn [In].
      assert (H : currentPage = 1 \/ currentPage = 2 \/ currentPage = 3
                  \/ currentPage = 4) by lia.
      destruct H as [H|[H|[H|H]]]; rewrite H; tauto.
  - apply Z.leb_gt in E1.
    destruct (totalPages - 3 <=? currentPage) eqn:E2.
    + apply Z.leb_le in E2. rewrite Z.max_l by lia.
      replace (totalPages - 1) with (totalPages - 4 + 3) by lia.
      rewrite fromTo_four.
      cbn [map app List.length hd last numbersOf].
      split; [reflexivity|]. split; [reflexivity|]. split; [f_equal; lia|].
      split.
      * repeat constructor; lia.
      * intros Hc. cbn [In].
        assert (H : currentPage = totalPages - 4 + 1
                    \/ currentPage = totalPages - 4 + 2
                    \/ currentPage = totalPages - 4 + 3
                    \/ currentPage = totalPages) by lia.
        destruct H as [H|[H|[H|H]]]; rewrite H; cbn [In]; intuition auto.
    + apply Z.leb_gt in E2.
      replace (currentPage + 1) with (currentPage - 1 + 2) by lia.
      rewrite fromTo_three.
      cbn [map app List.length hd last numbersOf].
      split; [reflexivity|]. split; [reflexivity|]. split; [reflexivity|].
      split.
      * repeat constructor; lia.
      * intros Hc. cbn [In]. right. right. right. left. f_equal. lia.
Qed.

(** X23 with ten pages and the fifth shown. *)
Lemma generatePageNumbers_seven_witness :
  7 < 10
  /\ List.length (generatePageNumbers 5 10) = 7%nat
  /\ hd Ellipsis (generatePageNumbers 5 10) = PageNumber 1
  /\ last (generatePageNumbers 5 10) Ellipsis = PageNumber 10
  /\ StronglySorted Z.lt (numbersOf (generatePageNumbers 5 10))
  /\ (1 <= 5 <= 10 -> In (PageNumber 5) (generatePageNumbers 5 10)).
Proof.
  split; [lia|]. apply (generatePageNumbers_seven 5 10). lia.
Defined.
